(** * cpy-cli: a shallow embedding of [cli.js]

  The development follows the layout of the program:

  - [Js]       the ECMAScript string primitives [cli.js] calls
               ([startsWith], [includes], [replaceAll] with its
               replacement patterns);
  - [Node]     the services of the Node.js runtime and of [globby] that
               [cli.js] imports, kept abstract in a record [Host];
  - [Cpy]      the copy engine behind [import cpy from 'cpy'];
  - [Cli]      [cli.js] itself: [isDirectory], the rename template, the
               single-file shortcut and the [try]/[catch] body;
  - [Sample]   one concrete host and file system used to run the model.
*)

From Stdlib Require Import ZArith Lia Bool Ascii.
From stdpp Require Import gmap strings list.


(* ===================================================================== *)
(** * ECMAScript strings                                                  *)
(* ===================================================================== *)

(** Strings are sequences of bytes (UTF-8).  The search values the program
    uses are ASCII, for which searching bytes and searching UTF-16 code
    units select the same occurrences. *)

Module Js.

(** [String.prototype.startsWith(search)] *)
Fixpoint startsWith (s search : string) {struct search} : bool :=
  match search, s with
  | EmptyString, _ => true
  | String c search', String d s' =>
      if decide (c = d) then startsWith s' search' else false
  | String _ _, EmptyString => false
  end.

(** [String.prototype.includes(search)] *)
Fixpoint includes (s search : string) : bool :=
  startsWith s search ||
  match s with
  | EmptyString => false
  | String _ s' => includes s' search
  end.

(** [GetSubstitution(matched, str, position, captures, namedCaptures,
    replacementTemplate)] of ECMA-262 for a string search value: there
    are no captures and no named captures, so [$n], [$nn] and [$<] stand
    for themselves, and only [$$], [$&], [$`] and [$'] are rewritten.
    [before] is [str] up to [position], [after] is [str] from the end of
    the match. *)
Fixpoint GetSubstitution (matched before after template : string) : string :=
  match template with
  | EmptyString => EmptyString
  | String c rest =>
      if decide (c = "$"%char) then
        match rest with
        | String d rest' =>
            if decide (d = "$"%char) then
              String "$" (GetSubstitution matched before after rest')
            else if decide (d = "&"%char) then
              matched +:+ GetSubstitution matched before after rest'
            else if decide (d = "`"%char) then
              before +:+ GetSubstitution matched before after rest'
            else if decide (d = "'"%char) then
              after +:+ GetSubstitution matched before after rest'
            else String c (GetSubstitution matched before after rest)
        | EmptyString => String c EmptyString
        end
      else String c (GetSubstitution matched before after rest)
  end.

(** Drop the first [n] characters: [s.slice(n)]. *)
Fixpoint drop (n : nat) (s : string) : string :=
  match n, s with
  | O, _ => s
  | S n', String _ s' => drop n' s'
  | S _, EmptyString => EmptyString
  end.

(** [String.prototype.replaceAll(searchValue, replaceValue)] for string
    arguments.  ECMA-262 collects the match positions with
    [StringIndexOf], advancing by [max 1 (length searchValue)] after each
    match, and then concatenates the preserved pieces and the
    substitutions.  The scan below does both at once: [before] is the
    part of the subject already passed, [skip] the number of characters
    of the current match still to be passed over. *)
Fixpoint replaceAll_from (search replaceValue before s : string) (skip : nat)
  : string :=
  match skip with
  | S k =>
      match s with
      | String c s' =>
          replaceAll_from search replaceValue (before +:+ String c EmptyString) s' k
      | EmptyString => EmptyString
      end
  | O =>
      if startsWith s search then
        GetSubstitution search before (drop (String.length search) s) replaceValue
        +:+
        match s with
        | String c s' =>
            match String.length search with
            | O => String c (replaceAll_from search replaceValue
                               (before +:+ String c EmptyString) s' O)
            | S k => replaceAll_from search replaceValue
                       (before +:+ String c EmptyString) s' k
            end
        | EmptyString => EmptyString
        end
      else
        match s with
        | String c s' =>
            String c (replaceAll_from search replaceValue
                        (before +:+ String c EmptyString) s' O)
        | EmptyString => EmptyString
        end
  end.

Definition replaceAll (s search replaceValue : string) : string :=
  replaceAll_from search replaceValue EmptyString s O.

(** Truthiness of a string: only the empty string is falsy. *)
Definition truthy_string (s : string) : bool :=
  match s with EmptyString => false | String _ _ => true end.

(** [/[\\/]$/.test(s)]: the last character is a backslash or a slash. *)
Fixpoint endsWithSeparator (s : string) : bool :=
  match s with
  | EmptyString => false
  | String c EmptyString =>
      bool_decide (c = "\"%char) || bool_decide (c = "/"%char)
  | String _ s' => endsWithSeparator s'
  end.

End Js.

(* ===================================================================== *)
(** * The Node.js runtime and globby, as seen from [cli.js]               *)
(* ===================================================================== *)

Module Node.

(** An error object: [cli.js] reads [error.name] and [error.message]. *)
Record JsError := mkError { name : string; message : string }.

(** The result of evaluating an expression that may throw. *)
Inductive Completion (A : Type) :=
| Normal (a : A)
| Throw (e : JsError).
Arguments Normal {A} a.
Arguments Throw {A} e.

(** The part of [fs.Stats] the program and the update policy look at. *)
Record Stats := { stat_isDirectory : bool; mtime : Z; size : Z }.

(** What a path of the file system holds.  [Faulty e] is a path whose
    metadata cannot be retrieved: [stat] fails there with [e] (a
    permission error, a symbolic-link loop, ...).  A path that is not in
    the map does not exist. *)
Inductive Inode :=
| File (content : string) (modified : Z)
| Directory (modified : Z)
| Faulty (e : JsError).

Abbreviation FS := (gmap string Inode).

Definition ENOENT (p : string) : JsError :=
  mkError "Error" ("ENOENT: no such file or directory, stat '" +:+ p +:+ "'").

(** [fs.statSync(path)] *)
Definition statSync (fs : FS) (p : string) : Completion Stats :=
  match fs !! p with
  | None => Throw (ENOENT p)
  | Some (File content modified) =>
      Normal {| stat_isDirectory := false; mtime := modified;
                size := Z.of_nat (String.length content) |}
  | Some (Directory modified) =>
      Normal {| stat_isDirectory := true; mtime := modified; size := 0 |}
  | Some (Faulty e) => Throw e
  end.

(** Whether a path holds a directory. *)
Definition directoryAt (fs : FS) (p : string) : bool :=
  match fs !! p with
  | Some (Directory _) => true
  | _ => false
  end.

(** The imported functions [cli.js] and the engine call but do not
    define: [node:path], [node:process], [node:os] and [globby].  They
    are parameters of the development. *)
Record Host := {
  process_platform : string;
  process_cwd : string;
  os_cpus_length : Z;
  path_sep : string;
  path_resolve : string -> string -> string;
  path_basename : string -> string;
  path_dirname : string -> string;
  path_relative : string -> string -> string;
  path_join : string -> string -> string;
  (** [path.parse(p).name] and [path.extname(p)] *)
  path_name : string -> string;
  path_extname : string -> string;
  (** globby's [isDynamicPattern]: it answers whether a pattern has glob
      syntax, and throws on a pattern it refuses (a [TypeError] on an
      empty pattern). *)
  isDynamicPattern : string -> Completion bool;
  (** The glob capability: [glob fs cwd dot patterns] is the ordered,
      deduplicated sequence of absolute paths of the existing files the
      patterns select under [cwd], entries matched by a negated pattern
      and junk files excluded, each with the fixed (non-glob) prefix of
      the pattern that produced it. *)
  glob : FS -> string -> bool -> list string -> list (string * string);
}.

End Node.

(* ===================================================================== *)
(** * Values crossing the [cpy(...)] call                                 *)
(* ===================================================================== *)

Module Value.

(** The [source] object handed to a rename function. *)
Record SourceFile := {
  source_path : string;
  nameWithoutExtension : string;
  extension : string;
}.

(** One progress report / one completed copy. *)
Record CopyRecord := { sourcePath : string; destinationPath : string }.

(** The JavaScript values stored in the options object.  [VRename f] is
    a function [(source, destination) => { destination.name = f source }];
    [VOnProgress k] is a callback whose effect on the array it closes
    over is [k]. *)
Inductive JsValue :=
| VUndefined
| VBool (b : bool)
| VNumber (n : Z)
| VString (s : string)
| VRename (f : SourceFile -> string)
| VOnProgress (k : CopyRecord -> list CopyRecord -> list CopyRecord).

Abbreviation JsObject := (gmap string JsValue).

(** Property read: a missing key reads as [undefined]. *)
Definition get (o : JsObject) (k : string) : JsValue :=
  default VUndefined (o !! k).

(** [ToBoolean] *)
Definition truthy (v : JsValue) : bool :=
  match v with
  | VUndefined => false
  | VBool b => b
  | VNumber n => negb (n =? 0)%Z
  | VString s => Js.truthy_string s
  | VRename _ | VOnProgress _ => true
  end.

(** What a call of the engine does: the progress reports it makes, in
    the order it makes them, the value it resolves to or the error it
    rejects with, and the file system it leaves. *)
Record CpyOutcome := {
  events : list CopyRecord;
  result : Node.Completion (list CopyRecord);
  fs_after : Node.FS;
}.

Definition Engine : Type :=
  list string -> option string -> JsObject -> Node.FS -> CpyOutcome.

End Value.

(* ===================================================================== *)
(** * The copy engine ([import cpy from 'cpy'])                           *)
(* ===================================================================== *)

(** The engine is a package [cli.js] depends on; its source is not in this
  repository.  Every definition of this module is written from the
  specification (sections 3, 4 and 7) and says so. *)

Module Cpy.
Import Node Value.

(** Modelled from the spec: the error kinds of section 7 that the engine
    raises.  [NoMatchError] has no constructor here: it is [cli.js] that
    fails on an empty result (lines 135-138), so the engine resolves to
    the empty copy set when nothing matches. *)
Inductive ErrorKind :=
| MissingArgumentsError
| SourceNotFoundError (path : string)
| AlreadyExistsError (source destination : string)
| StatError (source destination : string)
| CopyIOError (source destination : string).

(** Modelled from the spec: the common form of the per-file messages (the
    message texts of the engine are not in this repository). *)
Definition cannotCopy (source destination why : string) : string :=
  "Cannot copy from `" +:+ source +:+ "` to `" +:+ destination +:+ "`: " +:+ why.

(** Modelled from the spec: the message of each error kind.  The spec
    fixes only that the message of [SourceNotFoundError] includes the
    offending path; the wording follows the messages the test-suite
    matches. *)
Definition describe (k : ErrorKind) : string :=
  match k with
  | MissingArgumentsError => "`source` and `destination` required"
  | SourceNotFoundError path =>
      "Cannot copy `" +:+ path +:+ "`: the file doesn't exist"
  | AlreadyExistsError source destination =>
      cannotCopy source destination "the destination already exists"
  | StatError source destination =>
      cannotCopy source destination "cannot read the file metadata"
  | CopyIOError source destination =>
      cannotCopy source destination "the copy failed"
  end.

(** Modelled from the spec: the error kinds of section 7 are the
    user-facing errors; [cli.js] recognises them by the name [CpyError]. *)
Definition CpyError (k : ErrorKind) : JsError :=
  mkError "CpyError" (describe k).

(** ** Options (section 3, CopyOptions) *)

(** Modelled from the spec: the base-mode of section 3, [cwd | pattern]. *)
Inductive BaseMode := BaseCwd | BasePattern.

(** Modelled from the spec: the rename rule of section 3, identity,
    literal rename or template function. *)
Inductive RenameRule :=
| Identity
| Literal (name : string)
| Template (f : SourceFile -> string).

(** Modelled from the spec: the CopyOptions bundle of section 3, without
    the concurrency limit, which the scheduler below does not use. *)
Record CopyOptions := {
  overwrite : bool;
  update : bool;
  flatten : bool;
  baseMode : BaseMode;
  renameRule : RenameRule;
  dot : bool;
  dryRun : bool;
  cwd : string;
}.

(** Modelled from the spec: how the options object is read into the
    CopyOptions bundle of section 3.  Overwrite is enabled unless it is
    given as a falsy value; every other switch is enabled when its
    property is truthy; a property that is absent reads as [undefined]. *)
Definition readOptions (h : Host) (o : JsObject) : CopyOptions :=
  {| overwrite := match get o "overwrite" with
                  | VUndefined => true
                  | v => truthy v
                  end;
     update := truthy (get o "update");
     flatten := truthy (get o "flat");
     baseMode := match get o "base" with
                 | VString base =>
                     if decide (base = "pattern") then BasePattern else BaseCwd
                 | _ => BaseCwd
                 end;
     renameRule := match get o "rename" with
                   | VString name => if Js.truthy_string name then Literal name else Identity
                   | VRename f => Template f
                   | _ => Identity
                   end;
     dot := truthy (get o "dot");
     dryRun := truthy (get o "dryRun");
     cwd := match get o "cwd" with
            | VString dir => dir
            | _ => process_cwd h
            end |}.

(** ** Update Policy (section 4.4) *)

(** Modelled from the spec: the result [{proceed, reason}] of section 4.4,
    with one reason per case of the contract. *)
Inductive Reason := DestinationMissing | SourceNewer | SizeDiffers | UpToDate.

(** Modelled from the spec: [{proceed, reason}]. *)
Record Verdict := { proceed : bool; reason : Reason }.

(** Modelled from the spec: [shouldCopy(sourceMeta, destinationMeta)] of
    section 4.4; [destinationMeta = None] is a destination that does not
    exist. *)
Definition shouldCopy (sourceMeta : Stats) (destinationMeta : option Stats)
  : Verdict :=
  match destinationMeta with
  | None => {| proceed := true; reason := DestinationMissing |}
  | Some destination =>
      if (mtime destination <? mtime sourceMeta)%Z then
        {| proceed := true; reason := SourceNewer |}
      else if (mtime sourceMeta =? mtime destination)%Z
              && negb (size sourceMeta =? size destination)%Z then
        {| proceed := true; reason := SizeDiffers |}
      else {| proceed := false; reason := UpToDate |}
  end.

(** Modelled from the spec: metadata retrieval for the update policy.
    Not-found is an answer ([None]); any other failure is a hard error. *)
Definition metadata (fs : FS) (p : string) : option (option Stats) :=
  match fs !! p with
  | None => Some None
  | Some (Faulty _) => None
  | Some _ =>
      match statSync fs p with
      | Normal st => Some (Some st)
      | Throw _ => None
      end
  end.

(** Modelled from the spec: the update gate of sections 4.4 and 4.6.  It
    is consulted only in update mode, and update mode is ignored when
    overwrite is disabled.  [Normal true] lets the copy proceed,
    [Normal false] skips it silently. *)
Definition updateGate (o : CopyOptions) (fs : FS) (source destination : string)
  : Completion bool :=
  if update o && overwrite o then
    match metadata fs source, metadata fs destination with
    | Some (Some sourceMeta), Some destinationMeta =>
        Normal (proceed (shouldCopy sourceMeta destinationMeta))
    | Some None, Some _ => Normal true
    | _, _ => Throw (CpyError (StatError source destination))
    end
  else Normal true.

(** Modelled from the spec: whether the update gate lets a copy
    through (a would-be copy, in a dry run). *)
Definition passes (o : CopyOptions) (fs : FS) (task : CopyRecord) : bool :=
  match updateGate o fs (sourcePath task) (destinationPath task) with
  | Normal true => true
  | _ => false
  end.

(** ** Path Resolver and Rename Templater (sections 4.2 and 4.3) *)

(** Modelled from the spec: the name decomposition handed to a rename
    rule, [{nameWithoutExtension, extension}]. *)
Definition decompose (h : Host) (source : string) : SourceFile :=
  {| source_path := source;
     nameWithoutExtension := path_name h source;
     extension := Js.drop 1 (path_extname h source) |}.

(** Modelled from the spec: the Rename Templater of section 4.3 rewrites
    the file name of the computed destination. *)
Definition applyRename (h : Host) (rule : RenameRule)
    (source destination : string) : string :=
  match rule with
  | Identity => destination
  | Literal name => path_join h (path_dirname h destination) name
  | Template f =>
      path_join h (path_dirname h destination) (f (decompose h source))
  end.

(** Modelled from the spec: the Path Resolver of section 4.2.
    [originBase] is the directory the relative structure is computed
    against (the cwd, or the fixed prefix of the matching pattern).  A
    copy into an ancestor directory of the source, and an empty relative
    path, fall back to the basename. *)
Definition relativePart (h : Host) (o : CopyOptions)
    (destinationDir source originBase : string) : string :=
  if flatten o then path_basename h source
  else
    let relativePath := path_relative h originBase source in
    if negb (Js.truthy_string relativePath)
       || Js.startsWith source (destinationDir +:+ path_sep h)
    then path_basename h source
    else relativePath.

(** Modelled from the spec: the destination of one source entry, the
    relative part under the destination directory, renamed. *)
Definition resolveDestination (h : Host) (o : CopyOptions)
    (destinationDir : string) (entry : string * string) : string :=
  let source := entry.1 in
  let originBase := match baseMode o with
                    | BaseCwd => cwd o
                    | BasePattern => entry.2
                    end in
  applyRename h (renameRule o) source
    (path_join h destinationDir (relativePart h o destinationDir source originBase)).

(** ** Copy Scheduler (section 4.6) *)

(** Modelled from the spec: the byte-copy primitive honouring the
    overwrite flag.  The copy preserves the content and the timestamp. *)
Definition copyFile (o : CopyOptions) (fs : FS) (source destination : string)
  : Completion unit * FS :=
  if negb (overwrite o) && bool_decide (is_Some (fs !! destination)) then
    (Throw (CpyError (AlreadyExistsError source destination)), fs)
  else
    match fs !! source, fs !! destination with
    | Some (File content modified), (None | Some (File _ _)) =>
        (Normal (), <[destination := File content modified]> fs)
    | _, _ => (Throw (CpyError (CopyIOError source destination)), fs)
    end.

(** Modelled from the spec: one task of the scheduler.  Update gate, then
    either the report of the would-be copy (dry run) or the copy itself;
    [Normal None] is a silent skip. *)
Definition runTask (o : CopyOptions) (fs : FS) (task : CopyRecord)
  : Completion (option CopyRecord) * FS :=
  match updateGate o fs (sourcePath task) (destinationPath task) with
  | Throw e => (Throw e, fs)
  | Normal false => (Normal None, fs)
  | Normal true =>
      if dryRun o then (Normal (Some task), fs)
      else
        match copyFile o fs (sourcePath task) (destinationPath task) with
        | (Throw e, fs') => (Throw e, fs')
        | (Normal _, fs') => (Normal (Some task), fs')
        end
  end.

(** Modelled from the spec: the scheduler runs the tasks in match order
    and stops at the first failure (fail fast); completed copies are not
    rolled back.  The pool of concurrent copies is not modelled: one task
    is in flight at a time. *)
Fixpoint run (o : CopyOptions) (fs : FS) (tasks : list CopyRecord) : CpyOutcome :=
  match tasks with
  | [] => {| events := []; result := Normal []; fs_after := fs |}
  | task :: rest =>
      match runTask o fs task with
      | (Throw e, fs') => {| events := []; result := Throw e; fs_after := fs' |}
      | (Normal None, fs') => run o fs' rest
      | (Normal (Some done), fs') =>
          let later := run o fs' rest in
          {| events := done :: events later;
             result := match result later with
                       | Normal files => Normal (done :: files)
                       | Throw e => Throw e
                       end;
             fs_after := fs_after later |}
      end
  end.

(** Modelled from the spec: the positive patterns of section 3, those
    without the exclusion marker. *)
Definition positive (patterns : list string) : list string :=
  filter (fun pattern => Js.startsWith pattern "!" = false) patterns.

(** Modelled from the spec: the copy set of an invocation, every matched
    source paired with its destination. *)
Definition tasks (h : Host) (o : CopyOptions) (fs : FS)
    (patterns : list string) (destination : string) : list CopyRecord :=
  let destinationDir := path_resolve h (cwd o) destination in
  map (fun entry =>
         {| sourcePath := entry.1;
            destinationPath := resolveDestination h o destinationDir entry |})
      (glob h fs (cwd o) (dot o) patterns).

(** Modelled from the spec: an invocation of the engine.  Missing
    operands are refused first; a single named (non-glob) source that
    does not exist is [SourceNotFoundError]; otherwise the copy set is
    scheduled. *)
Definition cpy (h : Host) : Engine :=
  fun patterns destination options fs =>
    let o := readOptions h options in
    match positive patterns, destination with
    | [], _ | _, None =>
        {| events := []; result := Throw (CpyError MissingArgumentsError);
           fs_after := fs |}
    | named :: others, Some destination =>
        let copySet := tasks h o fs patterns destination in
        match copySet, others with
        | [], [] =>
            let source := path_resolve h (cwd o) named in
            match isDynamicPattern h named with
            | Normal false =>
                if bool_decide (fs !! source = None)
                then {| events := [];
                        result := Throw (CpyError (SourceNotFoundError source));
                        fs_after := fs |}
                else run o fs copySet
            | _ => run o fs copySet
            end
        | _, _ => run o fs copySet
        end
    end.

End Cpy.

(* ===================================================================== *)
(** * [cli.js]                                                            *)
(* ===================================================================== *)

Module Cli.
Import Node Value.

(** ** The process: two output streams, the file system, and the three
    ways a statement can end. *)

Record World := { stdout : list string; stderr : list string; files : FS }.

Inductive Signal (A : Type) :=
| Returned (a : A)
| Thrown (e : JsError)
| Exited (code : Z).
Arguments Returned {A} a.
Arguments Thrown {A} e.
Arguments Exited {A} code.

Definition Proc (A : Type) : Type := World -> Signal A * World.

Definition ret {A} (a : A) : Proc A := fun w => (Returned a, w).

Definition bind {A B} (m : Proc A) (k : A -> Proc B) : Proc B :=
  fun w =>
    match m w with
    | (Returned a, w') => k a w'
    | (Thrown e, w') => (Thrown e, w')
    | (Exited code, w') => (Exited code, w')
    end.

Declare Scope proc_scope.
Delimit Scope proc_scope with proc.
Bind Scope proc_scope with Proc.
Notation "x <- m ;; k" := (bind m (fun x => k))
  (at level 20, m at level 99, k at level 200, only parsing) : proc_scope.
Notation "m ;; k" := (bind m (fun _ => k))
  (at level 100, k at level 200, right associativity, only parsing) : proc_scope.
Local Open Scope proc_scope.

Definition throw {A} (e : JsError) : Proc A := fun w => (Thrown e, w).

(** [try { body } catch (error) { handler }]: [process.exit] is not an
    exception and is not caught. *)
Definition try_catch {A} (body : Proc A) (handler : JsError -> Proc A) : Proc A :=
  fun w =>
    match body w with
    | (Thrown e, w') => handler e w'
    | other => other
    end.

Definition console_log (line : string) : Proc unit :=
  fun w => (Returned (),
            {| stdout := stdout w ++ [line]; stderr := stderr w; files := files w |}).

Definition console_error (line : string) : Proc unit :=
  fun w => (Returned (),
            {| stdout := stdout w; stderr := stderr w ++ [line]; files := files w |}).

Definition process_exit {A} (code : Z) : Proc A := fun w => (Exited code, w).

Fixpoint for_of {A} (items : list A) (body : A -> Proc unit) : Proc unit :=
  match items with
  | [] => ret ()
  | item :: rest => body item ;; for_of rest body
  end.

(** [a && b] on effectful operands: [b] is evaluated only if [a] is true. *)
Definition and_then (a b : Proc bool) : Proc bool :=
  x <- a ;; if x then b else ret false.
Infix "&&&" := and_then (at level 40, left associativity) : proc_scope.

(** [!a] on an effectful operand. *)
Definition negation (a : Proc bool) : Proc bool := x <- a ;; ret (negb x).

(** A call of an imported function that may throw. *)
Definition evaluate {A} (c : Completion A) : Proc A :=
  fun w =>
    match c with
    | Normal a => (Returned a, w)
    | Throw e => (Thrown e, w)
    end.

(** ** Lines 10-16 *)

Definition statSync (filePath : string) : Proc Stats :=
  fun w =>
    match Node.statSync (files w) filePath with
    | Normal stats => (Returned stats, w)
    | Throw e => (Thrown e, w)
    end.

Definition isDirectory (filePath : string) : Proc bool :=
  try_catch
    (stats <- statSync filePath ;; ret (stat_isDirectory stats))
    (fun _ => ret false).

(** ** Lines 18-84: the parsed command line *)

(** [cli.flags].  [update] is not in the flag table of lines 52-83; meow
    keeps flags it does not know, so [--update] still arrives as
    [cli.flags.update]. *)
Record Flags := {
  overwrite : bool;
  cwd : string;
  base : option string;
  rename : option string;
  dot : bool;
  flat : bool;
  dryRun : bool;
  concurrency : Z;
  update : bool;
}.

Record Meow := { input : list string; flags : Flags }.

(** The defaults of the flag table. *)
Definition defaultFlags (h : Host) : Flags :=
  {| overwrite := true;
     cwd := process_cwd h;
     base := None;
     rename := None;
     dot := false;
     flat := false;
     dryRun := false;
     concurrency := ((if (0 <? os_cpus_length h)%Z then os_cpus_length h else 1) * 2)%Z;
     update := false |}.

(** ** Lines 87-93: the rename template *)

Definition stringTemplate : string := "{{basename}}".

Definition renameTemplate (rename : string) (source : SourceFile) : string :=
  Js.replaceAll rename stringTemplate (nameWithoutExtension source)
  +:+ (if Js.truthy_string (extension source)
       then "." +:+ extension source
       else EmptyString).

Definition renameFlag (rename : option string) : JsValue :=
  match rename with
  | Some rename =>
      if Js.includes rename stringTemplate
      then VRename (renameTemplate rename)
      else VString rename
  | None => VUndefined
  end.

(** ** Lines 95-117: the single-file shortcut *)

(** [cli.input.pop()]: the removed last element, and the array left. *)
Definition pop (input : list string) : option string * list string :=
  (last input, removelast input).

Definition sourcePatterns (input : list string) : list string :=
  filter (fun pattern => Js.startsWith pattern "!" = false) input.

(** A value that is a string wherever the program uses it. *)
Definition str (v : option string) : string := default EmptyString v.

Definition hasDestination (destination : option string) : bool :=
  bool_decide (is_Some destination).

Definition hasTrailingSeparator (destination : option string) : bool :=
  hasDestination destination && Js.endsWithSeparator (str destination).

Definition sourcePatternForDynamicCheck (h : Host) (sourcePatterns : list string)
  : option string :=
  if (length sourcePatterns =? 1) && bool_decide (process_platform h = "win32")
  then (fun first => Js.replaceAll first "\" "/") <$> sourcePatterns !! 0
  else sourcePatterns !! 0.

Definition isFileToFileCopy (h : Host) (flags : Flags)
    (sourcePatterns : list string) (destination : option string) : Proc bool :=
  ret (length sourcePatterns =? 1)
  &&& ret (hasDestination destination)
  &&& negation (evaluate (isDynamicPattern h
                            (str (sourcePatternForDynamicCheck h sourcePatterns))))
  &&& negation (isDirectory (path_resolve h (cwd flags) (str (sourcePatterns !! 0))))
  &&& ret (negb (hasTrailingSeparator destination))
  &&& negation (isDirectory (path_resolve h (cwd flags) (str destination))).

(** What [isFileToFileCopy] evaluates to on a file system: the glob test
    is reached only with exactly one source pattern and a destination, and
    what it throws is thrown by the whole expression. *)
Definition fileToFile (h : Host) (flags : Flags) (fs : FS)
    (sourcePatterns : list string) (destination : option string)
  : Completion bool :=
  if (length sourcePatterns =? 1) && hasDestination destination then
    match isDynamicPattern h
            (str (sourcePatternForDynamicCheck h sourcePatterns)) with
    | Normal dynamic =>
        Normal (negb dynamic
                && negb (directoryAt fs (path_resolve h (cwd flags)
                                           (str (sourcePatterns !! 0))))
                && negb (hasTrailingSeparator destination)
                && negb (directoryAt fs (path_resolve h (cwd flags)
                                           (str destination))))
    | Throw e => Throw e
    end
  else Normal false.

(** ** Lines 119-133: the call of the engine *)

Definition onProgress (flags : Flags) (progress : CopyRecord)
    (copyFiles : list CopyRecord) : list CopyRecord :=
  if dryRun flags
  then copyFiles ++ [ {| sourcePath := sourcePath progress;
                         destinationPath := destinationPath progress |} ]
  else copyFiles.

Definition optional (v : option string) : JsValue :=
  match v with Some s => VString s | None => VUndefined end.

(** The object literal of lines 119-133, with [cli.flags.rename] and
    [cli.flags.flat] as they stand at the call. *)
Definition cpyOptions (flags : Flags) (rename : JsValue) (flat : bool) : JsObject :=
  list_to_map
    [ ("cwd", VString (cwd flags));
      ("base", optional (base flags));
      ("rename", rename);
      ("overwrite", VBool (overwrite flags));
      ("dot", VBool (dot flags));
      ("flat", VBool flat);
      ("concurrency", VNumber (concurrency flags));
      ("dryRun", VBool (dryRun flags));
      ("onProgress", VOnProgress (onProgress flags)) ].

Record CpyCall := {
  call_input : list string;
  call_destination : option string;
  call_options : JsObject;
}.

(** Lines 87-117 and the argument list of line 119. *)
Definition prepare (h : Host) (cli : Meow) : Proc CpyCall :=
  let rename := renameFlag (rename (flags cli)) in
  let (destination, input) := pop (input cli) in
  let sourcePatterns := sourcePatterns input in
  shortcut <- isFileToFileCopy h (flags cli) sourcePatterns destination ;;
  if (shortcut : bool) then
    let destinationFilename := path_basename h (str destination) in
    ret {| call_input := input;
           call_destination := Some (path_dirname h (str destination));
           call_options :=
             cpyOptions (flags cli) (VRename (fun _ => destinationFilename)) true |}
  else
    ret {| call_input := input;
           call_destination := destination;
           call_options := cpyOptions (flags cli) rename (flat (flags cli)) |}.

(** [await cpy(...)]: the engine runs, calling [onProgress] for each of
    its reports; the promise then resolves or rejects. *)
Definition await_cpy (cpy : Engine) (flags : Flags) (call : CpyCall)
  : Proc (list CopyRecord * list CopyRecord) :=
  fun w =>
    let outcome := cpy (call_input call) (call_destination call)
                       (call_options call) (files w) in
    let copyFiles :=
      foldl (fun copyFiles progress => onProgress flags progress copyFiles)
            [] (events outcome) in
    let w' := {| stdout := stdout w; stderr := stderr w;
                 files := fs_after outcome |} in
    match result outcome with
    | Normal files => (Returned (files, copyFiles), w')
    | Throw e => (Thrown e, w')
    end.

(** ** Lines 135-144 *)

Definition noMatch : string := "No files matched the given patterns".

Definition line (h : Host) (copied : CopyRecord) : string :=
  path_relative h (process_cwd h) (sourcePath copied)
  +:+ " → "
  +:+ path_relative h (process_cwd h) (destinationPath copied).

Definition report (h : Host) (flags : Flags)
    (files copyFiles : list CopyRecord) : Proc unit :=
  (if length files =? 0
   then console_error noMatch ;; process_exit 1
   else ret ()) ;;
  if dryRun flags
  then for_of copyFiles (fun copied => console_log (line h copied))
  else ret ().

(** ** Lines 86-152: the program *)

Definition main (cpy : Engine) (h : Host) (cli : Meow) : Proc unit :=
  try_catch
    (call <- prepare h cli ;;
     done <- await_cpy cpy (flags cli) call ;;
     report h (flags cli) done.1 done.2)
    (fun error =>
       if decide (name error = "CpyError")
       then console_error (message error) ;; process_exit 1
       else throw error).

(** Running the program on a file system, with nothing printed yet. *)
Definition start (fs : FS) : World := {| stdout := []; stderr := []; files := fs |}.

(** The arguments of the [cpy(...)] call of line 119 for a command line
    and a file system, or the error thrown before the call is reached. *)
Definition invocation (h : Host) (cli : Meow) (fs : FS) : Completion CpyCall :=
  let destination := (pop (input cli)).1 in
  let input := (pop (input cli)).2 in
  match fileToFile h (flags cli) fs (sourcePatterns input) destination with
  | Throw e => Throw e
  | Normal true =>
      Normal {| call_input := input;
                call_destination := Some (path_dirname h (str destination));
                call_options :=
                  cpyOptions (flags cli)
                    (VRename (fun _ => path_basename h (str destination))) true |}
  | Normal false =>
      Normal {| call_input := input;
                call_destination := destination;
                call_options :=
                  cpyOptions (flags cli) (renameFlag (rename (flags cli)))
                             (flat (flags cli)) |}
  end.

(** What the call does. *)
Definition engineOutcome (cpy : Engine) (call : CpyCall) (fs : FS) : CpyOutcome :=
  cpy (call_input call) (call_destination call) (call_options call) fs.

(** The error the [try] block ends with, if any, and the file system at
    that point: the error thrown by the shortcut test before the call, or
    the error the engine rejects with. *)
Definition thrown (cpy : Engine) (h : Host) (cli : Meow) (fs : FS)
  : option (JsError * FS) :=
  match invocation h cli fs with
  | Throw error => Some (error, fs)
  | Normal call =>
      match result (engineOutcome cpy call fs) with
      | Throw error => Some (error, fs_after (engineOutcome cpy call fs))
      | Normal _ => None
      end
  end.

(** The value of [isFileToFileCopy] at line 109. *)
Definition reclassified (h : Host) (cli : Meow) (fs : FS) : Prop :=
  (isFileToFileCopy h (flags cli) (sourcePatterns (pop (input cli)).2)
                    (pop (input cli)).1 (start fs)).1 = Returned true.

End Cli.

(* ===================================================================== *)
(** * A concrete host                                                     *)
(* ===================================================================== *)

(** A POSIX-like instance of [Node.Host], small enough to run inside the
  proof assistant.  It is used to evaluate the program on concrete
  command lines; the general statements quantify over every host. *)

Module Sample.
Import Node Value.

Fixpoint split_from (current s : string) : list string :=
  match s with
  | EmptyString => [current]
  | String c s' =>
      if decide (c = "/"%char) then current :: split_from EmptyString s'
      else split_from (current +:+ String c EmptyString) s'
  end.

Definition segments (p : string) : list string :=
  filter (fun segment => segment <> EmptyString) (split_from EmptyString p).

Definition isAbsolute (p : string) : bool := Js.startsWith p "/".

Fixpoint joinSegments (parts : list string) : string :=
  match parts with
  | [] => EmptyString
  | [part] => part
  | part :: rest => part +:+ "/" +:+ joinSegments rest
  end.

(** [stack] holds the segments kept so far, innermost first. *)
Fixpoint normalizeSegments (absolute : bool) (stack parts : list string)
  : list string :=
  match parts with
  | [] => rev stack
  | part :: rest =>
      if decide (part = ".") then normalizeSegments absolute stack rest
      else if decide (part = "..") then
        match stack with
        | top :: below =>
            if decide (top = "..")
            then normalizeSegments absolute (part :: stack) rest
            else normalizeSegments absolute below rest
        | [] =>
            if absolute then normalizeSegments absolute [] rest
            else normalizeSegments absolute [part] rest
        end
      else normalizeSegments absolute (part :: stack) rest
  end.

Definition render (absolute : bool) (parts : list string) : string :=
  if absolute then "/" +:+ joinSegments parts
  else match parts with [] => "." | _ => joinSegments parts end.

Definition normalize (p : string) : string :=
  render (isAbsolute p) (normalizeSegments (isAbsolute p) [] (segments p)).

Definition resolve (base p : string) : string :=
  if isAbsolute p then normalize p else normalize (base +:+ "/" +:+ p).

Definition basename (p : string) : string := default EmptyString (last (segments p)).

Definition dirname (p : string) : string :=
  render (isAbsolute p) (removelast (segments p)).

Definition join (a b : string) : string := normalize (a +:+ "/" +:+ b).

Fixpoint stripCommon (a b : list string) : list string * list string :=
  match a, b with
  | x :: a', y :: b' => if decide (x = y) then stripCommon a' b' else (a, b)
  | _, _ => (a, b)
  end.

Definition relativeFrom (workingDirectory from to : string) : string :=
  let (up, down) := stripCommon (segments (resolve workingDirectory from))
                                (segments (resolve workingDirectory to)) in
  joinSegments (map (fun _ => "..") up ++ down).

(** Index of the last dot of [s] at or after position [i], if any. *)
Fixpoint lastDot (i : nat) (s : string) : option nat :=
  match s with
  | EmptyString => None
  | String c s' =>
      match lastDot (S i) s' with
      | Some j => Some j
      | None => if decide (c = "."%char) then Some i else None
      end
  end.

Fixpoint take (n : nat) (s : string) : string :=
  match n, s with
  | S n', String c s' => String c (take n' s')
  | _, _ => EmptyString
  end.

Definition extname (p : string) : string :=
  match lastDot 0 (basename p) with
  | Some (S i) => Js.drop (S i) (basename p)
  | _ => EmptyString
  end.

Definition nameOf (p : string) : string :=
  match lastDot 0 (basename p) with
  | Some (S i) => take (S i) (basename p)
  | _ => basename p
  end.

Fixpoint anyChar (test : ascii -> bool) (s : string) : bool :=
  match s with
  | EmptyString => false
  | String c s' => test c || anyChar test s'
  end.

Definition hasMagic (pattern : string) : bool :=
  anyChar (fun c => bool_decide (c = "*"%char) || bool_decide (c = "?"%char)
                    || bool_decide (c = "["%char) || bool_decide (c = "{"%char)
                    || bool_decide (c = "("%char) || bool_decide (c = "\"%char))
          pattern.

(** The glob test refuses an empty pattern. *)
Definition isDynamic (pattern : string) : Completion bool :=
  match pattern with
  | EmptyString =>
      Throw (mkError "TypeError"
               "Patterns must be a string (non empty) or an array of strings")
  | _ => Normal (hasMagic pattern)
  end.

(** [*] stands for any run of characters other than the separator. *)
Fixpoint wild (fuel : nat) (pattern s : string) : bool :=
  match fuel with
  | O => false
  | S fuel' =>
      match pattern with
      | EmptyString => bool_decide (s = EmptyString)
      | String p pattern' =>
          if decide (p = "*"%char) then
            wild fuel' pattern' s
            || match s with
               | String c s' => negb (bool_decide (c = "/"%char)) && wild fuel' pattern s'
               | EmptyString => false
               end
          else
            match s with
            | String c s' => bool_decide (c = p) && wild fuel' pattern' s'
            | EmptyString => false
            end
      end
  end.

Definition matches (pattern path : string) : bool :=
  wild (String.length pattern + String.length path + 1) pattern path.

Fixpoint fixedSegments (parts : list string) : list string :=
  match parts with
  | [] => []
  | part :: rest => if hasMagic part then [] else part :: fixedSegments rest
  end.

Definition isFile (node : Inode) : bool :=
  match node with File _ _ => true | _ => false end.

Definition filesOf (fs : FS) : list string :=
  filter (fun p => from_option isFile false (fs !! p) = true) (map_to_list fs).*1.

(** What one positive pattern selects: a named file, the files below a
    named directory, or the files a wildcard pattern matches. *)
Definition select (fs : FS) (cwd pattern : string) : list (string * string) :=
  let target := resolve cwd pattern in
  if hasMagic pattern then
    map (fun p => (p, render true (fixedSegments (segments target))))
        (filter (fun p => matches target p = true) (filesOf fs))
  else
    match fs !! target with
    | Some (File _ _) => [(target, dirname target)]
    | Some (Directory _) =>
        map (fun p => (p, dirname target))
            (filter (fun p => Js.startsWith p (target +:+ "/") = true) (filesOf fs))
    | _ => []
    end.

Definition junk (p : string) : bool :=
  bool_decide (basename p = ".DS_Store") || bool_decide (basename p = "Thumbs.db").

Definition hidden (p : string) : bool := Js.startsWith (basename p) ".".

Fixpoint dedupe (seen : list string) (entries : list (string * string))
  : list (string * string) :=
  match entries with
  | [] => []
  | entry :: rest =>
      if bool_decide (entry.1 ∈ seen) then dedupe seen rest
      else entry :: dedupe (entry.1 :: seen) rest
  end.

Definition globFiles (fs : FS) (cwd : string) (dot : bool) (patterns : list string)
  : list (string * string) :=
  let negative := filter (fun pattern => Js.startsWith pattern "!" = true) patterns in
  let positive := filter (fun pattern => Js.startsWith pattern "!" = false) patterns in
  let excluded p :=
    existsb (fun pattern => matches (resolve cwd (Js.drop 1 pattern)) p) negative in
  dedupe []
    (filter (fun entry => (negb (excluded entry.1) && negb (junk entry.1)
                           && (dot || negb (hidden entry.1))) = true)
            (concat (map (select fs cwd) positive))).

Definition host : Host :=
  {| process_platform := "linux";
     process_cwd := "/work";
     os_cpus_length := 4;
     path_sep := "/";
     path_resolve := resolve;
     path_basename := basename;
     path_dirname := dirname;
     path_relative := relativeFrom "/work";
     path_join := join;
     path_name := nameOf;
     path_extname := extname;
     isDynamicPattern := isDynamic;
     glob := globFiles |}.

(** The same host on Windows, for the branch of line 101. *)
Definition win32 : Host :=
  {| process_platform := "win32";
     process_cwd := "/work";
     os_cpus_length := 4;
     path_sep := "/";
     path_resolve := resolve;
     path_basename := basename;
     path_dirname := dirname;
     path_relative := relativeFrom "/work";
     path_join := join;
     path_name := nameOf;
     path_extname := extname;
     isDynamicPattern := isDynamic;
     glob := globFiles |}.

Definition flags : Cli.Flags := Cli.defaultFlags host.

(** [cpy <arguments>] with the default flags. *)
Definition cpy (fs : FS) (arguments : list string) : Cli.Signal unit * Cli.World :=
  Cli.main (Cpy.cpy host) host {| Cli.input := arguments; Cli.flags := flags |}
           (Cli.start fs).

End Sample.

(* ===================================================================== *)
(** * The statements of the specification                                 *)
(* ===================================================================== *)

Module Spec.
Import Node Value.

(** A path that resolves to an existing directory. *)
Definition existingDirectory (fs : FS) (p : string) : Prop :=
  exists modified, fs !! p = Some (Directory modified).

(** Section 4.5 as it is worded: the source arguments are the arguments
    before the destination, and there is exactly one of them. *)
Definition shortcutAsWorded (h : Host) (fs : FS) (cwd : string)
    (arguments : list string) : Prop :=
  exists source destination,
    arguments = [source; destination]
    /\ isDynamicPattern h source = Normal false
    /\ ~ existingDirectory fs (path_resolve h cwd source)
    /\ Js.endsWithSeparator destination = false
    /\ ~ existingDirectory fs (path_resolve h cwd destination).

(** The pattern handed to the glob test: on Windows, backslashes are
    read as separators. *)
Definition globForm (h : Host) (source : string) : string :=
  if decide (process_platform h = "win32")
  then Js.replaceAll source "\" "/"
  else source.

(** Section 4.5 with the source arguments counted as the program counts
    them: negated patterns (a leading [!]) are left out. *)
Definition shortcut (h : Host) (fs : FS) (cwd : string)
    (arguments : list string) : Prop :=
  exists sources source destination,
    arguments = sources ++ [destination]
    /\ Cli.sourcePatterns sources = [source]
    /\ isDynamicPattern h (globForm h source) = Normal false
    /\ ~ existingDirectory fs (path_resolve h cwd source)
    /\ Js.endsWithSeparator destination = false
    /\ ~ existingDirectory fs (path_resolve h cwd destination).

(** The template rule of section 4.3 read off a template cut at its
    placeholders: the name is put between the pieces, and the extension,
    if any, follows a dot. *)
Fixpoint between (separator : string) (pieces : list string) : string :=
  match pieces with
  | [] => EmptyString
  | [piece] => piece
  | piece :: rest => piece +:+ separator +:+ between separator rest
  end.

Definition withExtension (name extension : string) : string :=
  match extension with
  | EmptyString => name
  | _ => name +:+ "." +:+ extension
  end.

Fixpoint free (c : ascii) (s : string) : Prop :=
  match s with
  | EmptyString => True
  | String d s' => d <> c /\ free c s'
  end.

(** The no-match failure: the message of lines 135-138 on the error
    stream, and exit code 1. *)
Definition noMatchFailure (final : Cli.Signal unit * Cli.World) : Prop :=
  final.1 = Cli.Exited 1
  /\ Cli.stderr final.2 = ["No files matched the given patterns"].

(** A string rewritten character by character. *)
Fixpoint mapChars (f : ascii -> ascii) (s : string) : string :=
  match s with
  | EmptyString => EmptyString
  | String c s' => String (f c) (mapChars f s')
  end.

(** A backslash read as a slash. *)
Definition slashed (c : ascii) : ascii :=
  if decide (c = "\"%char) then "/"%char else c.

(** The placeholder occurs in a string: the string is some text, the
    placeholder, and some more text. *)
Definition holdsPlaceholder (s : string) : Prop :=
  exists before after, s = before +:+ Cli.stringTemplate +:+ after.

End Spec.

(* ===================================================================== *)
(** * File systems and command lines used as examples                     *)
(* ===================================================================== *)

Module Fixture.
Import Node Value.

(** [hello.js] (content A) next to a directory [dest] that already holds
    a [hello.js] (content B). *)
Definition overwriteTree : FS :=
  list_to_map
    [ ("/work/hello.js", File "A" 10);
      ("/work/dest", Directory 1);
      ("/work/dest/hello.js", File "B" 5) ].

(** A source older than its destination. *)
Definition staleTree : FS :=
  list_to_map
    [ ("/work/source.txt", File "source-old" 1);
      ("/work/dest", Directory 0);
      ("/work/dest/source.txt", File "destination-newer" 2) ].

(** Two files and no directory. *)
Definition flatTree : FS :=
  list_to_map
    [ ("/work/a.txt", File "a" 1);
      ("/work/b.txt", File "b" 1) ].

(** A file whose name holds dollar signs. *)
Definition dollarTree : FS :=
  list_to_map
    [ ("/work/a$$b.js", File "x" 1);
      ("/work/dest", Directory 0) ].

(** A destination whose metadata cannot be read. *)
Definition lockedTree : FS :=
  list_to_map
    [ ("/work/a.txt", File "a" 1);
      ("/work/locked", Faulty (mkError "Error" "EACCES: permission denied")) ].

(** An empty source directory. *)
Definition emptyTree : FS :=
  list_to_map [ ("/work/src", Directory 0) ].

Definition withFlags (update dryRun overwrite : bool) (rename : option string)
  : Cli.Flags :=
  {| Cli.overwrite := overwrite;
     Cli.cwd := "/work";
     Cli.base := None;
     Cli.rename := rename;
     Cli.dot := false;
     Cli.flat := false;
     Cli.dryRun := dryRun;
     Cli.concurrency := 8;
     Cli.update := update |}.

Definition run (flags : Cli.Flags) (fs : FS) (arguments : list string)
  : Cli.Signal unit * Cli.World :=
  Cli.main (Cpy.cpy Sample.host) Sample.host
           {| Cli.input := arguments; Cli.flags := flags |} (Cli.start fs).

End Fixture.

(* ===================================================================== *)
(** * Properties                                                          *)
(* ===================================================================== *)

Import Node Value.

(** ** Strings *)

Section StringFacts.

Lemma append_cons c (s t : string) : String c s +:+ t = String c (s +:+ t).
Proof. reflexivity. Qed.

Lemma append_empty_l (t : string) : EmptyString +:+ t = t.
Proof. reflexivity. Qed.

Lemma append_empty_r (s : string) : s +:+ EmptyString = s.
Proof. induction s as [|c s IH]; [done|]. by rewrite append_cons, IH. Qed.

Lemma append_associative (s t u : string) : (s +:+ t) +:+ u = s +:+ (t +:+ u).
Proof.
  induction s as [|c s IH]; [done|]. by rewrite !append_cons, IH.
Qed.

Lemma startsWith_append (s rest : string) : Js.startsWith (s +:+ rest) s = true.
Proof.
  induction s as [|c s IH]; [done|].
  rewrite append_cons. simpl. by destruct (decide (c = c)).
Qed.

(** A replacement text without a dollar sign is inserted as it is. *)
Lemma GetSubstitution_plain matched before after template :
  Spec.free "$" template ->
  Js.GetSubstitution matched before after template = template.
Proof.
  induction template as [|c rest IH]; [done|].
  intros [Hc Hrest]. simpl.
  destruct (decide (c = "$"%char)) as [->|_]; [done|].
  by rewrite IH.
Qed.

Variables search replaceValue : string.

(** The characters of a match are passed over without output. *)
Lemma replaceAll_from_skip (matched before rest : string) :
  Js.replaceAll_from search replaceValue before (matched +:+ rest)
                     (String.length matched)
  = Js.replaceAll_from search replaceValue (before +:+ matched) rest 0.
Proof.
  revert before. induction matched as [|c matched IH]; intros before.
  - by rewrite append_empty_l, append_empty_r.
  - rewrite append_cons. simpl. rewrite IH.
    by rewrite append_associative, append_cons, append_empty_l.
Qed.

Lemma replaceAll_from_end (before : string) :
  search <> EmptyString ->
  Js.replaceAll_from search replaceValue before EmptyString 0 = EmptyString.
Proof. destruct search; [done|]. reflexivity. Qed.

End StringFacts.

(** ** The rename template (lines 87-93) *)

Section RenameTemplate.

Variable name : string.
Hypothesis name_plain : Spec.free "$" name.

(** Text without an opening brace holds no placeholder: it is kept. *)
Lemma replaceAll_piece (piece before rest : string) :
  Spec.free "{" piece ->
  Js.replaceAll_from Cli.stringTemplate name before (piece +:+ rest) 0
  = piece +:+ Js.replaceAll_from Cli.stringTemplate name (before +:+ piece) rest 0.
Proof.
  revert before. induction piece as [|c piece IH]; intros before Hfree.
  - by rewrite !append_empty_l, append_empty_r.
  - destruct Hfree as [Hc Hfree].
    rewrite !append_cons. simpl.
    destruct (decide ("{"%char = c)) as [<-|_]; [done|].
    rewrite IH by done.
    by rewrite append_associative, append_cons, append_empty_l.
Qed.

(** A placeholder is replaced by the name. *)
Lemma replaceAll_placeholder (before rest : string) :
  Js.replaceAll_from Cli.stringTemplate name before
                     (Cli.stringTemplate +:+ rest) 0
  = name +:+ Js.replaceAll_from Cli.stringTemplate name
               (before +:+ Cli.stringTemplate) rest 0.
Proof.
  change (Cli.stringTemplate +:+ rest)
    with (String "{" ("{basename}}" +:+ rest)).
  cbn [Js.replaceAll_from].
  change (String "{" ("{basename}}" +:+ rest))
    with (Cli.stringTemplate +:+ rest).
  rewrite startsWith_append, GetSubstitution_plain by done.
  change (String.length Cli.stringTemplate) with (S (String.length "{basename}}")).
  cbv iota beta.
  change (Cli.stringTemplate +:+ rest)
    with (String "{" ("{basename}}" +:+ rest)).
  cbv iota beta.
  rewrite replaceAll_from_skip.
  by rewrite append_associative.
Qed.

(** Every placeholder of a template is replaced by the name. *)
Lemma replaceAll_between (pieces : list string) (before : string) :
  pieces <> [] ->
  Forall (Spec.free "{") pieces ->
  Js.replaceAll_from Cli.stringTemplate name before
                     (Spec.between Cli.stringTemplate pieces) 0
  = Spec.between name pieces.
Proof.
  revert before. induction pieces as [|piece rest IH]; intros before Hne Hfree; [done|].
  apply Forall_cons in Hfree as [Hpiece Hrest].
  destruct rest as [|next rest].
  - simpl. rewrite <- (append_empty_r piece) at 1.
    rewrite replaceAll_piece by done.
    rewrite replaceAll_from_end by done. apply append_empty_r.
  - change (Spec.between Cli.stringTemplate (piece :: next :: rest))
      with (piece +:+ Cli.stringTemplate
                  +:+ Spec.between Cli.stringTemplate (next :: rest)).
    change (Spec.between name (piece :: next :: rest))
      with (piece +:+ name +:+ Spec.between name (next :: rest)).
    rewrite replaceAll_piece, replaceAll_placeholder by done.
    by rewrite IH.
Qed.

(** The template rule on a template cut at its placeholders. *)
Lemma renameTemplate_between (pieces : list string) (source : SourceFile) :
  nameWithoutExtension source = name ->
  pieces <> [] ->
  Forall (Spec.free "{") pieces ->
  Cli.renameTemplate (Spec.between Cli.stringTemplate pieces) source
  = Spec.withExtension (Spec.between name pieces) (extension source).
Proof.
  intros Hname Hne Hfree. unfold Cli.renameTemplate, Js.replaceAll.
  rewrite Hname, replaceAll_between by done.
  destruct (extension source); [apply append_empty_r | done].
Qed.

End RenameTemplate.

(** ** The program *)

Section Program.

Variable h : Host.

Lemma directoryAt_true (fs : FS) (p : string) :
  directoryAt fs p = true <-> Spec.existingDirectory fs p.
Proof.
  unfold directoryAt, Spec.existingDirectory. split.
  - destruct (fs !! p) as [[| |]|]; try done. eauto.
  - intros [modified ->]. done.
Qed.

Lemma directoryAt_false (fs : FS) (p : string) :
  directoryAt fs p = false <-> ~ Spec.existingDirectory fs p.
Proof.
  rewrite <- directoryAt_true. by destruct (directoryAt fs p).
Qed.

(** [isDirectory] always returns, and leaves the process as it is. *)
Lemma isDirectory_returns (filePath : string) (w : Cli.World) :
  Cli.isDirectory filePath w
  = (Cli.Returned (directoryAt (Cli.files w) filePath), w).
Proof.
  unfold Cli.isDirectory, Cli.try_catch, Cli.bind, Cli.statSync, Cli.ret,
    Node.statSync, directoryAt.
  by destruct (Cli.files w !! filePath) as [[| |]|].
Qed.

Lemma not_isDirectory_returns (filePath : string) (w : Cli.World) :
  Cli.negation (Cli.isDirectory filePath) w
  = (Cli.Returned (negb (directoryAt (Cli.files w) filePath)), w).
Proof. unfold Cli.negation, Cli.bind. by rewrite isDirectory_returns. Qed.

(** [&&] of two operands that return without touching the process. *)
Lemma and_then_returns (p q : Cli.Proc bool) (a b : bool) (w : Cli.World) :
  p w = (Cli.Returned a, w) ->
  q w = (Cli.Returned b, w) ->
  Cli.and_then p q w = (Cli.Returned (a && b), w).
Proof.
  intros Hp Hq. unfold Cli.and_then, Cli.bind. rewrite Hp.
  destruct a; [by rewrite Hq | done].
Qed.

(** [&&] when the left operand may have thrown and the right one
    returns. *)
Lemma and_then_evaluated (p q : Cli.Proc bool) (left : Completion bool)
    (b : bool) (w : Cli.World) :
  p w = Cli.evaluate left w ->
  q w = (Cli.Returned b, w) ->
  Cli.and_then p q w
  = Cli.evaluate (match left with
                  | Normal a => Normal (a && b)
                  | Throw e => Throw e
                  end) w.
Proof.
  intros Hp Hq. unfold Cli.and_then, Cli.bind. rewrite Hp.
  destruct left as [[|]|e]; simpl; [exact Hq | done | done].
Qed.

Lemma isFileToFileCopy_returns (flags : Cli.Flags) (sources : list string)
    (destination : option string) (w : Cli.World) :
  Cli.isFileToFileCopy h flags sources destination w
  = Cli.evaluate (Cli.fileToFile h flags (Cli.files w) sources destination) w.
Proof.
  unfold Cli.isFileToFileCopy.
  set (glob := isDynamicPattern h _).
  assert (Cli.and_then
            (Cli.and_then (Cli.ret (length sources =? 1))
                          (Cli.ret (Cli.hasDestination destination)))
            (Cli.negation (Cli.evaluate glob)) w
          = Cli.evaluate
              (if (length sources =? 1) && Cli.hasDestination destination
               then match glob with
                    | Normal dynamic => Normal (negb dynamic)
                    | Throw e => Throw e
                    end
               else Normal false) w) as Hglob.
  { unfold Cli.and_then, Cli.negation, Cli.bind, Cli.ret, Cli.evaluate.
    destruct (length sources =? 1); [|done].
    destruct (Cli.hasDestination destination); [|done].
    by destruct glob as [[|]|]. }
  pose proof (and_then_evaluated _ _ _ _ w Hglob
                (not_isDirectory_returns
                   (path_resolve h (Cli.cwd flags) (Cli.str (sources !! 0))) w))
    as Hsource.
  pose proof (and_then_evaluated _ (Cli.ret (negb (Cli.hasTrailingSeparator destination)))
                _ _ w Hsource eq_refl) as Hseparator.
  pose proof (and_then_evaluated _ _ _ _ w Hseparator
                (not_isDirectory_returns
                   (path_resolve h (Cli.cwd flags) (Cli.str destination)) w))
    as Htarget.
  rewrite Htarget. clear. unfold Cli.fileToFile. fold glob.
  destruct ((length sources =? 1) && Cli.hasDestination destination); [|done].
  destruct glob as [dynamic|e]; [|done].
  by rewrite <- !andb_assoc.
Qed.

Lemma reclassified_fileToFile (cli : Cli.Meow) (fs : FS) :
  Cli.reclassified h cli fs
  <-> Cli.fileToFile h (Cli.flags cli) fs
        (Cli.sourcePatterns (Cli.pop (Cli.input cli)).2)
        (Cli.pop (Cli.input cli)).1 = Normal true.
Proof.
  unfold Cli.reclassified. rewrite isFileToFileCopy_returns. simpl.
  destruct (Cli.fileToFile _ _ _ _ _) as [[|]|]; simpl; split; done.
Qed.

(** The arguments of the engine call, or the error thrown by the
    shortcut test. *)
Lemma prepare_invocation (cli : Cli.Meow) (w : Cli.World) :
  Cli.prepare h cli w = Cli.evaluate (Cli.invocation h cli (Cli.files w)) w.
Proof.
  unfold Cli.prepare, Cli.invocation. simpl. unfold Cli.bind.
  rewrite isFileToFileCopy_returns.
  by destruct (Cli.fileToFile _ _ _ _ _) as [[|]|].
Qed.

(** Every call carries the options object of lines 119-133 and all
    operands but the last. *)
Lemma invocation_options (cli : Cli.Meow) (fs : FS) (call : Cli.CpyCall) :
  Cli.invocation h cli fs = Normal call ->
  exists rename flat,
    Cli.call_options call = Cli.cpyOptions (Cli.flags cli) rename flat
    /\ (Cli.flat (Cli.flags cli) = true -> flat = true)
    /\ Cli.call_input call = removelast (Cli.input cli)
    /\ (is_Some (Cli.pop (Cli.input cli)).1 <-> is_Some (Cli.call_destination call)).
Proof.
  unfold Cli.invocation.
  destruct (Cli.fileToFile _ _ _ _ _) as [[|]|] eqn:Hvalue; intros [= <-]; simpl.
  - exists (VRename (fun _ => path_basename h (Cli.str (last (Cli.input cli))))), true.
    repeat split; try done. intros _.
    unfold Cli.fileToFile, Cli.hasDestination in Hvalue. simpl in Hvalue.
    destruct (last (Cli.input cli)); [by eauto|].
    rewrite bool_decide_false in Hvalue by (by intros []).
    by rewrite andb_false_r in Hvalue.
  - eauto 10.
Qed.

(** The array [copyFiles] after the progress reports [reports]. *)
Lemma copyFiles_after (flags : Cli.Flags) (reports copyFiles : list CopyRecord) :
  foldl (fun copyFiles progress => Cli.onProgress flags progress copyFiles)
        copyFiles reports
  = if Cli.dryRun flags then copyFiles ++ reports else copyFiles.
Proof.
  revert copyFiles. induction reports as [|[source destination] reports IH];
    intros copyFiles; simpl.
  - destruct (Cli.dryRun flags); [by rewrite app_nil_r | done].
  - rewrite IH. unfold Cli.onProgress.
    destruct (Cli.dryRun flags); [by rewrite <- app_assoc | done].
Qed.

(** The loop of lines 141-143 prints one line per element, in order. *)
Lemma for_of_console_log {A} (render : A -> string) (items : list A) (w : Cli.World) :
  Cli.for_of items (fun item => Cli.console_log (render item)) w
  = (Cli.Returned (),
     {| Cli.stdout := Cli.stdout w ++ map render items;
        Cli.stderr := Cli.stderr w;
        Cli.files := Cli.files w |}).
Proof.
  revert w. induction items as [|item items IH]; intros [out err fs]; simpl.
  - unfold Cli.ret. by rewrite app_nil_r.
  - unfold Cli.bind, Cli.console_log. simpl. rewrite IH. simpl.
    by rewrite <- app_assoc.
Qed.

(** The program, by cases on what the shortcut test and the engine call
    do. *)
Lemma main_cases (cpy : Engine) (cli : Cli.Meow) (fs : FS) :
  Cli.main cpy h cli (Cli.start fs)
  = match Cli.invocation h cli fs with
    | Throw error =>
        if decide (name error = "CpyError")
        then (Cli.Exited 1,
              {| Cli.stdout := []; Cli.stderr := [message error]; Cli.files := fs |})
        else (Cli.Thrown error,
              {| Cli.stdout := []; Cli.stderr := []; Cli.files := fs |})
    | Normal call =>
        let outcome := Cli.engineOutcome cpy call fs in
        let ended out err :=
          {| Cli.stdout := out; Cli.stderr := err; Cli.files := fs_after outcome |} in
        match result outcome with
        | Throw error =>
            if decide (name error = "CpyError")
            then (Cli.Exited 1, ended [] [message error])
            else (Cli.Thrown error, ended [] [])
        | Normal files =>
            if length files =? 0 then (Cli.Exited 1, ended [] [Cli.noMatch])
            else if Cli.dryRun (Cli.flags cli)
                 then (Cli.Returned (), ended (map (Cli.line h) (events outcome)) [])
                 else (Cli.Returned (), ended [] [])
        end
    end.
Proof.
  unfold Cli.main, Cli.try_catch, Cli.bind at 1.
  rewrite prepare_invocation. cbn [Cli.files Cli.start].
  destruct (Cli.invocation h cli fs) as [call|error]; simpl.
  2:{ by destruct (decide (name error = "CpyError")). }
  unfold Cli.bind at 1, Cli.await_cpy, Cli.engineOutcome.
  set (outcome := cpy _ _ _ _).
  rewrite copyFiles_after. simpl.
  destruct (result outcome) as [files|error]; simpl.
  - unfold Cli.report, Cli.bind. simpl.
    destruct (length files =? 0); simpl; [done|].
    destruct (Cli.dryRun (Cli.flags cli)); [|done].
    by rewrite for_of_console_log.
  - destruct (decide (name error = "CpyError")); done.
Qed.

End Program.

(** ** Output and errors of the program *)

(** C9: an invocation without the dry-run flag writes nothing to standard
  output, whatever the engine does and however the program ends; the
  progress reports are kept only in dry-run mode, so without it the
  array [copyFiles] stays empty. *)
Theorem stdout_empty_without_dry_run
    (cpy : Engine) (h : Host) (cli : Cli.Meow) (fs : FS) :
  Cli.dryRun (Cli.flags cli) = false ->
  Cli.stdout (Cli.main cpy h cli (Cli.start fs)).2 = []
  /\ forall reports,
       foldl (fun copyFiles progress =>
                Cli.onProgress (Cli.flags cli) progress copyFiles) [] reports = [].
Proof.
  intros Hdry. split.
  - rewrite main_cases. destruct (Cli.invocation h cli fs) as [call|error].
    + cbv zeta. rewrite Hdry. destruct (result _) as [files|error].
      * by destruct (length files =? 0).
      * by destruct (decide _).
    + by destruct (decide _).
  - intros reports. by rewrite copyFiles_after, Hdry.
Qed.

Lemma stdout_empty_without_dry_run_witness :
  Cli.dryRun Sample.flags = false
  /\ Cli.stdout (Fixture.run Sample.flags Fixture.overwriteTree
                             ["hello.js"; "dest"]).2 = [].
Proof.
  split; [reflexivity|].
  apply (stdout_empty_without_dry_run (Cpy.cpy Sample.host) Sample.host
           {| Cli.input := ["hello.js"; "dest"]; Cli.flags := Sample.flags |}
           Fixture.overwriteTree).
  reflexivity.
Defined.



(** C10, as the program has it: the directory check never raises.  It
  returns for every path and every state of the file system; whenever
  [statSync] fails, for whatever reason, the answer is [false], so a
  destination whose metadata cannot be read counts as a file to be
  created.  The shortcut test built on it fails only when the glob test
  [isDynamicPattern] throws, which it is asked only with exactly one
  source pattern and a destination; the error is then the one the glob
  test threw. *)
Theorem isDirectory_total (w : Cli.World) (filePath : string) :
  (exists answer, Cli.isDirectory filePath w = (Cli.Returned answer, w))
  /\ (forall error,
        Node.statSync (Cli.files w) filePath = Throw error ->
        Cli.isDirectory filePath w = (Cli.Returned false, w))
  /\ (forall h flags sources destination,
        (exists answer,
           Cli.isFileToFileCopy h flags sources destination w
           = (Cli.Returned answer, w))
        \/ (exists error,
              length sources = 1
              /\ is_Some destination
              /\ isDynamicPattern h
                   (Cli.str (Cli.sourcePatternForDynamicCheck h sources))
                 = Throw error
              /\ Cli.isFileToFileCopy h flags sources destination w
                 = (Cli.Thrown error, w)))
  /\ (forall h flags source error,
        Node.statSync (Cli.files w) (path_resolve h (Cli.cwd flags) filePath)
        = Throw error ->
        isDynamicPattern h (Spec.globForm h source) = Normal false ->
        ~ Spec.existingDirectory (Cli.files w)
            (path_resolve h (Cli.cwd flags) source) ->
        Js.endsWithSeparator filePath = false ->
        Cli.isFileToFileCopy h flags [source] (Some filePath) w
        = (Cli.Returned true, w)).
Proof.
  repeat split.
  - rewrite isDirectory_returns. eauto.
  - intros error. rewrite isDirectory_returns.
    unfold Node.statSync, directoryAt.
    by destruct (Cli.files w !! filePath) as [[| |]|].
  - intros h flags sources destination.
    rewrite isFileToFileCopy_returns. unfold Cli.fileToFile.
    destruct (Nat.eqb_spec (length sources) 1) as [Hone|Hmany]; simpl;
      [|left; by eexists].
    unfold Cli.hasDestination.
    destruct (decide (is_Some destination)) as [Hdest|Hnone].
    + rewrite bool_decide_true by done.
      destruct (isDynamicPattern h _) as [dynamic|error] eqn:Hglob.
      * left. by eexists.
      * right. by exists error.
    + rewrite bool_decide_false by done. left. by eexists.
  - intros h flags source error Hstat Hglob Hsource Hsep.
    rewrite isFileToFileCopy_returns.
    unfold Cli.fileToFile, Cli.hasTrailingSeparator, Cli.hasDestination.
    rewrite bool_decide_true by eauto. simpl.
    change (Cli.str (Cli.sourcePatternForDynamicCheck h [source]))
      with (Cli.str (if true && bool_decide (process_platform h = "win32")
                     then Some (Js.replaceAll source "\" "/")
                     else Some source)).
    assert (Cli.str (if true && bool_decide (process_platform h = "win32")
                     then Some (Js.replaceAll source "\" "/")
                     else Some source) = Spec.globForm h source) as ->.
    { unfold Spec.globForm.
      destruct (decide (process_platform h = "win32")).
      - by rewrite bool_decide_true.
      - by rewrite bool_decide_false. }
    rewrite Hglob, Hsep. simpl.
    apply directoryAt_false in Hsource. rewrite Hsource.
    assert (directoryAt (Cli.files w)
              (path_resolve h (Cli.cwd flags) filePath) = false) as ->.
    { revert Hstat. unfold Node.statSync, directoryAt.
      by destruct (Cli.files w !! _) as [[| |]|]. }
    done.
Qed.

(** C10 as it is worded fails: the shortcut test does fail, for an empty
    source pattern, which the glob test refuses with a [TypeError]. *)
Lemma shortcut_test_throws_on_empty_pattern :
  ~ exists answer,
      Cli.isFileToFileCopy Sample.host Sample.flags [EmptyString]
                           (Some "target.txt") (Cli.start Fixture.flatTree)
      = (Cli.Returned answer, Cli.start Fixture.flatTree).
Proof. intros [answer Hreturns]. vm_compute in Hreturns. discriminate. Qed.

Lemma isDirectory_total_witness :
  Cli.isDirectory "/work/locked" (Cli.start Fixture.lockedTree)
  = (Cli.Returned false, Cli.start Fixture.lockedTree)
  /\ Cli.isFileToFileCopy Sample.host Sample.flags ["a.txt"] (Some "locked")
                          (Cli.start Fixture.lockedTree)
     = (Cli.Returned true, Cli.start Fixture.lockedTree).
Proof.
  split.
  - apply (proj1 (proj2 (isDirectory_total (Cli.start Fixture.lockedTree)
                           "/work/locked"))
             (mkError "Error" "EACCES: permission denied")).
    vm_compute. reflexivity.
  - apply (proj2 (proj2 (proj2 (isDirectory_total (Cli.start Fixture.lockedTree)
                                  "locked")))
             Sample.host Sample.flags "a.txt"
             (mkError "Error" "EACCES: permission denied")).
    + vm_compute. reflexivity.
    + vm_compute. reflexivity.
    + intros [modified Hdir]. vm_compute in Hdir. discriminate.
    + vm_compute. reflexivity.
Defined.

(** ** The engine as [cli.js] calls it *)

Section EngineCall.

Variable h : Host.

(** The options object of lines 119-133 has nine keys; [update] is not
    one of them. *)
Lemma cpyOptions_update (flags : Cli.Flags) (rename : JsValue) (flat : bool) :
  Cli.cpyOptions flags rename flat !! "update" = None.
Proof. reflexivity. Qed.

(** How the engine reads that object. *)
Lemma readOptions_cpyOptions (flags : Cli.Flags) (rename : JsValue) (flat : bool) :
  Cpy.readOptions h (Cli.cpyOptions flags rename flat)
  = {| Cpy.overwrite := Cli.overwrite flags;
       Cpy.update := false;
       Cpy.flatten := flat;
       Cpy.baseMode := match Cli.base flags with
                       | Some base =>
                           if decide (base = "pattern")
                           then Cpy.BasePattern else Cpy.BaseCwd
                       | None => Cpy.BaseCwd
                       end;
       Cpy.renameRule := match rename with
                         | VString name =>
                             if Js.truthy_string name
                             then Cpy.Literal name else Cpy.Identity
                         | VRename f => Cpy.Template f
                         | _ => Cpy.Identity
                         end;
       Cpy.dot := Cli.dot flags;
       Cpy.dryRun := Cli.dryRun flags;
       Cpy.cwd := Cli.cwd flags |}.
Proof.
  unfold Cpy.readOptions, get.
  change (Cli.cpyOptions flags rename flat !! "overwrite")
    with (Some (VBool (Cli.overwrite flags))).
  change (Cli.cpyOptions flags rename flat !! "update") with (@None JsValue).
  change (Cli.cpyOptions flags rename flat !! "flat") with (Some (VBool flat)).
  change (Cli.cpyOptions flags rename flat !! "base")
    with (Some (Cli.optional (Cli.base flags))).
  change (Cli.cpyOptions flags rename flat !! "rename") with (Some rename).
  change (Cli.cpyOptions flags rename flat !! "dot")
    with (Some (VBool (Cli.dot flags))).
  change (Cli.cpyOptions flags rename flat !! "dryRun")
    with (Some (VBool (Cli.dryRun flags))).
  change (Cli.cpyOptions flags rename flat !! "cwd")
    with (Some (VString (Cli.cwd flags))).
  simpl. by destruct (Cli.base flags).
Qed.

End EngineCall.

Section NothingMatched.

Variable h : Host.

(** What the engine does when the patterns select no file. *)
Lemma cpy_nothing_matched (patterns : list string) (destination : option string)
    (options : JsObject) (fs : FS) :
  let o := Cpy.readOptions h options in
  let outcome := Cpy.cpy h patterns destination options fs in
  glob h fs (Cpy.cwd o) (Cpy.dot o) patterns = [] ->
  fs_after outcome = fs
  /\ (Cpy.positive patterns = [] \/ destination = None ->
      result outcome = Throw (Cpy.CpyError Cpy.MissingArgumentsError))
  /\ (is_Some destination ->
      forall first,
        Cpy.positive patterns = [first] ->
        isDynamicPattern h first = Normal false ->
        fs !! path_resolve h (Cpy.cwd o) first = None ->
        result outcome
        = Throw (Cpy.CpyError
                   (Cpy.SourceNotFoundError (path_resolve h (Cpy.cwd o) first))))
  /\ (is_Some destination ->
      forall first rest,
        Cpy.positive patterns = first :: rest ->
        rest <> [] \/ isDynamicPattern h first <> Normal false
        \/ is_Some (fs !! path_resolve h (Cpy.cwd o) first) ->
        result outcome = Normal []).
Proof.
  intros o outcome Hglob. subst outcome. unfold Cpy.cpy.
  fold o. clearbody o. unfold Cpy.tasks. rewrite Hglob. simpl.
  destruct (Cpy.positive patterns) as [|first rest] eqn:Hpositive; simpl.
  { split; [done|]. split; [done|]. split; [by intros _ ? ?|by intros _ ? ? ?]. }
  destruct destination as [target|]; simpl.
  2:{ split; [done|]. split; [done|]. split; by intros []. }
  destruct rest as [|second rest]; simpl.
  2:{ split; [done|]. split; [by intros [|]|]. split; [by intros _ ? ?|done]. }
  destruct (isDynamicPattern h first) as [[|]|] eqn:Hdynamic; simpl.
  1, 3: split; [done|]; split; [by intros [|]|]; split; [|done];
        intros _ ? [= <-]; congruence.
  case_bool_decide as Hnode; simpl.
  - split; [done|]. split; [by intros [|]|]. split; [by intros _ ? [= <-]|].
    intros _ ? ? [= <- <-] [?|[?|[? ?]]]; congruence.
  - split; [done|]. split; [by intros [|]|]. split; [|done].
    by intros _ ? [= <-] _ ?.
Qed.

End NothingMatched.

(** C7, as the program has it: when the patterns of an invocation (none
  of them the empty string, on which the pattern expansion is not
  specified) select no existing file under the working directory and the
  shortcut test does not throw, the invocation fails: nothing is copied,
  nothing goes to standard output, one message goes to the error stream
  and the exit code is 1.  The failure is the no-match failure, with the
  message [No files matched the given patterns], when a destination is
  given and every positive pattern is a dynamic glob pattern.  Without a
  positive pattern, or without a destination, the message asks for source
  and destination; and when the only pattern names a single file that
  does not exist, the message names that path. *)
Theorem no_match_fails (h : Host) (cli : Cli.Meow) (fs : FS) (call : Cli.CpyCall) :
  Cli.invocation h cli fs = Normal call ->
  Forall (fun pattern => pattern <> EmptyString) (Cli.pop (Cli.input cli)).2 ->
  glob h fs (Cli.cwd (Cli.flags cli)) (Cli.dot (Cli.flags cli))
       (Cli.pop (Cli.input cli)).2 = [] ->
  exists message,
    Cli.main (Cpy.cpy h) h cli (Cli.start fs)
    = (Cli.Exited 1,
       {| Cli.stdout := []; Cli.stderr := [message]; Cli.files := fs |})
    /\ (Cli.sourcePatterns (Cli.pop (Cli.input cli)).2 = []
        \/ (Cli.pop (Cli.input cli)).1 = None ->
        message = "`source` and `destination` required")
    /\ (is_Some (Cli.pop (Cli.input cli)).1 ->
        forall first,
          (Cli.pop (Cli.input cli)).2 = [first] ->
          Js.startsWith first "!" = false ->
          isDynamicPattern h first = Normal false ->
          fs !! path_resolve h (Cli.cwd (Cli.flags cli)) first = None ->
          message
          = Cpy.describe
              (Cpy.SourceNotFoundError
                 (path_resolve h (Cli.cwd (Cli.flags cli)) first)))
    /\ (is_Some (Cli.pop (Cli.input cli)).1 ->
        Cli.sourcePatterns (Cli.pop (Cli.input cli)).2 <> [] ->
        Forall (fun pattern => isDynamicPattern h pattern = Normal true)
               (Cli.sourcePatterns (Cli.pop (Cli.input cli)).2) ->
        message = "No files matched the given patterns").
Proof.
  intros Hcall _ Hglob. rewrite main_cases, Hcall. cbv zeta.
  destruct (invocation_options h cli fs call Hcall)
    as (rename & flat & Hoptions & _ & Hinput & Htarget).
  unfold Cli.engineOutcome. rewrite Hoptions, Hinput.
  change (removelast (Cli.input cli)) with (Cli.pop (Cli.input cli)).2 in *.
  set (patterns := (Cli.pop (Cli.input cli)).2) in *.
  set (destination := (Cli.pop (Cli.input cli)).1) in *.
  destruct (cpy_nothing_matched h patterns (Cli.call_destination call)
              (Cli.cpyOptions (Cli.flags cli) rename flat) fs)
    as (Hfs & Hmissing & Hnamed & Hnone).
  { by rewrite readOptions_cpyOptions. }
  rewrite readOptions_cpyOptions in Hnamed, Hnone. cbn [Cpy.cwd] in Hnamed, Hnone.
  rewrite Hfs.
  change (Cpy.positive patterns) with (Cli.sourcePatterns patterns) in *.
  assert (forall only, patterns = [only] -> Js.startsWith only "!" = false ->
                       Cli.sourcePatterns patterns = [only]) as Hsingle.
  { intros only -> Hstart. unfold Cli.sourcePatterns.
    by rewrite filter_cons_True, filter_nil. }
  destruct (Cli.sourcePatterns patterns) as [|first rest] eqn:Hpositive.
  { rewrite Hmissing by (by left). simpl. eexists. split; [done|].
    split; [done|]. split; [|done].
    intros _ only Honly Hstart. by specialize (Hsingle only Honly Hstart). }
  destruct destination as [target|] eqn:Hdestination.
  2:{ rewrite Hmissing.
      - simpl. eexists. split; [done|]. split; [done|].
        split; by intros [].
      - right. destruct (Cli.call_destination call) eqn:Hcalled; [|done].
        by destruct (proj2 Htarget ltac:(eauto)). }
  assert (is_Some (Cli.call_destination call)) as Hcalled
    by (apply Htarget; eauto).
  destruct rest as [|second rest].
  - destruct (isDynamicPattern h first) as [[|]|] eqn:Hdynamic.
    + rewrite (Hnone Hcalled first []) by (done || (right; left; congruence)).
      simpl. eexists. split; [done|]. split; [by intros [|]|].
      split; [|done]. intros _ only Honly Hstart.
      specialize (Hsingle only Honly Hstart). congruence.
    + destruct (fs !! path_resolve h (Cli.cwd (Cli.flags cli)) first)
        as [node|] eqn:Hnode.
      * rewrite (Hnone Hcalled first []) by (done || (right; right; eauto)).
        simpl. eexists. split; [done|]. split; [by intros [|]|].
        split.
        -- intros _ only Honly Hstart.
           specialize (Hsingle only Honly Hstart). congruence.
        -- intros _ _ Hall. apply Forall_cons_1 in Hall as [Hall _]. congruence.
      * rewrite (Hnamed Hcalled first) by done.
        simpl. eexists. split; [done|]. split; [by intros [|]|].
        split.
        -- intros _ only Honly Hstart.
           specialize (Hsingle only Honly Hstart). by injection Hsingle as <-.
        -- intros _ _ Hall. apply Forall_cons_1 in Hall as [Hall _]. congruence.
    + rewrite (Hnone Hcalled first []) by (done || (right; left; congruence)).
      simpl. eexists. split; [done|]. split; [by intros [|]|].
      split; [|done]. intros _ only Honly Hstart.
      specialize (Hsingle only Honly Hstart). congruence.
  - rewrite (Hnone Hcalled first (second :: rest)) by (done || by left).
    simpl. eexists. split; [done|]. split; [by intros [|]|].
    split; [|done]. intros _ only Honly Hstart.
    by specialize (Hsingle only Honly Hstart).
Qed.

Lemma no_match_fails_witness :
  Fixture.run Sample.flags Fixture.emptyTree ["src/*.js"; "dest"]
  = (Cli.Exited 1,
     {| Cli.stdout := [];
        Cli.stderr := ["No files matched the given patterns"];
        Cli.files := Fixture.emptyTree |}).
Proof.
  destruct (no_match_fails Sample.host
              {| Cli.input := ["src/*.js"; "dest"]; Cli.flags := Sample.flags |}
              Fixture.emptyTree
              {| Cli.call_input := ["src/*.js"];
                 Cli.call_destination := Some "dest";
                 Cli.call_options := Cli.cpyOptions Sample.flags VUndefined false |})
    as (message & Hrun & _ & _ & Hmessage);
    [vm_compute; reflexivity | by repeat constructor | vm_compute; reflexivity |].
  unfold Fixture.run. rewrite Hrun.
  rewrite Hmessage; [done | vm_compute; eauto | vm_compute; discriminate |].
  vm_compute. by repeat constructor.
Defined.

(** C7 as it is worded fails: patterns that select no file, in an
    invocation that is not a file-to-file copy, do not always end in the
    no-match failure.  With only a negated pattern the program asks for
    source and destination, and for a single named source that does not
    exist it names the missing path. *)
Lemma zero_matches_without_no_match_failure :
  ~ (glob Sample.host Fixture.flatTree "/work" false ["!a.txt"] = [] ->
     ~ Cli.reclassified Sample.host
         {| Cli.input := ["!a.txt"; "dest/"]; Cli.flags := Sample.flags |}
         Fixture.flatTree ->
     Spec.noMatchFailure
       (Fixture.run Sample.flags Fixture.flatTree ["!a.txt"; "dest/"]))
  /\ ~ (glob Sample.host Fixture.flatTree "/work" false ["missing.txt"] = [] ->
        ~ Cli.reclassified Sample.host
            {| Cli.input := ["missing.txt"; "dest/"]; Cli.flags := Sample.flags |}
            Fixture.flatTree ->
        Spec.noMatchFailure
          (Fixture.run Sample.flags Fixture.flatTree ["missing.txt"; "dest/"])).
Proof.
  split; intros Hclaim.
  - destruct Hclaim as [_ Hmessage].
    + vm_compute. reflexivity.
    + intros Hyes. vm_compute in Hyes. discriminate.
    + vm_compute in Hmessage. discriminate.
  - destruct Hclaim as [_ Hmessage].
    + vm_compute. reflexivity.
    + intros Hyes. vm_compute in Hyes. discriminate.
    + vm_compute in Hmessage. discriminate.
Qed.

(** ** Update policy and overwrite gate *)

(** C4: the update policy lets a copy proceed exactly when the destination
  does not exist, or the source was modified strictly later than the
  destination, or both were modified at the same time and their sizes
  differ.  With equal modification times and equal sizes it does not
  proceed, and the scheduler then skips the task without an error. *)
Theorem shouldCopy_proceeds (sourceMeta : Stats) (destinationMeta : option Stats) :
  (Cpy.proceed (Cpy.shouldCopy sourceMeta destinationMeta) = true
   <-> destinationMeta = None
       \/ exists destination,
            destinationMeta = Some destination
            /\ (mtime destination < mtime sourceMeta
                \/ (mtime sourceMeta = mtime destination
                    /\ size sourceMeta <> size destination)))%Z
  /\ (forall destination,
        destinationMeta = Some destination ->
        mtime sourceMeta = mtime destination ->
        size sourceMeta = size destination ->
        Cpy.shouldCopy sourceMeta destinationMeta
        = {| Cpy.proceed := false; Cpy.reason := Cpy.UpToDate |})
  /\ (forall o fs task,
        Cpy.updateGate o fs (sourcePath task) (destinationPath task) = Normal false ->
        Cpy.runTask o fs task = (Normal None, fs)).
Proof.
  split; [|split].
  - unfold Cpy.shouldCopy. destruct destinationMeta as [destination|].
    + destruct (Z.ltb_spec (mtime destination) (mtime sourceMeta)); simpl.
      { split; [|done]. intros _. right. exists destination. split; [done|]. by left. }
      destruct (Z.eqb_spec (mtime sourceMeta) (mtime destination));
        destruct (Z.eqb_spec (size sourceMeta) (size destination)); simpl.
      * split; [done|]. intros [|(d & [= <-] & [|[]])]; [done|lia|done].
      * split; [|done]. intros _. right. exists destination. split; [done|]. by right.
      * split; [done|]. intros [|(d & [= <-] & [|[]])]; [done|lia|done].
      * split; [done|]. intros [|(d & [= <-] & [|[]])]; [done|lia|done].
    + simpl. split; [by left|done].
  - intros destination -> Htime Hsize. unfold Cpy.shouldCopy.
    rewrite Htime, Hsize, Z.ltb_irrefl, !Z.eqb_refl. done.
  - intros o fs task Hgate. unfold Cpy.runTask. by rewrite Hgate.
Qed.

Lemma shouldCopy_proceeds_witness :
  Cpy.shouldCopy {| stat_isDirectory := false; mtime := 5; size := 4 |}
                 (Some {| stat_isDirectory := false; mtime := 5; size := 4 |})
  = {| Cpy.proceed := false; Cpy.reason := Cpy.UpToDate |}
  /\ Cpy.proceed
       (Cpy.shouldCopy {| stat_isDirectory := false; mtime := 5; size := 5 |}
                       (Some {| stat_isDirectory := false; mtime := 5; size := 14 |}))
     = true.
Proof.
  split.
  - apply (proj1 (proj2 (shouldCopy_proceeds
                           {| stat_isDirectory := false; mtime := 5; size := 4 |}
                           (Some {| stat_isDirectory := false; mtime := 5; size := 4 |})))
             {| stat_isDirectory := false; mtime := 5; size := 4 |});
      reflexivity.
  - apply (proj1 (shouldCopy_proceeds
                    {| stat_isDirectory := false; mtime := 5; size := 5 |}
                    (Some {| stat_isDirectory := false; mtime := 5; size := 14 |}))).
    right. eexists. split; [reflexivity|]. right. split; [reflexivity|discriminate].
Defined.

(** C6: for a copy that is carried out (no dry run) with the options
  [cli.js] passes: when overwrite is disabled and the destination exists,
  the task fails with [AlreadyExistsError] and the file system, hence the
  destination's content, is unchanged; when overwrite is enabled, the
  destination holds the source's content afterwards.  Overwrite is
  enabled by default. *)
Theorem overwrite_gate (h : Host) (flags : Cli.Flags) (rename : JsValue)
    (flat : bool) (fs : FS) (task : CopyRecord) :
  let o := Cpy.readOptions h (Cli.cpyOptions flags rename flat) in
  Cli.dryRun flags = false ->
  (Cli.overwrite flags = false ->
   is_Some (fs !! destinationPath task) ->
   Cpy.runTask o fs task
   = (Throw (Cpy.CpyError (Cpy.AlreadyExistsError (sourcePath task)
                                                  (destinationPath task))), fs))
  /\ (Cli.overwrite flags = true ->
      forall content modified,
        fs !! sourcePath task = Some (File content modified) ->
        fs !! destinationPath task = None
        \/ (exists old oldTime, fs !! destinationPath task = Some (File old oldTime)) ->
        Cpy.runTask o fs task
        = (Normal (Some task),
           <[destinationPath task := File content modified]> fs))
  /\ Cli.overwrite (Cli.defaultFlags h) = true.
Proof.
  intros o Hdry. subst o. rewrite readOptions_cpyOptions.
  unfold Cpy.runTask, Cpy.updateGate, Cpy.copyFile. simpl. rewrite Hdry.
  split; [|split; [|done]].
  - intros -> Hexists. simpl. by rewrite bool_decide_true.
  - intros -> content modified -> [->|(old & oldTime & ->)]; done.
Qed.

Lemma overwrite_gate_witness :
  let task := {| sourcePath := "/work/hello.js";
                 destinationPath := "/work/dest/hello.js" |} in
  (Cpy.runTask (Cpy.readOptions Sample.host
                  (Cli.cpyOptions (Fixture.withFlags false false false None)
                                  VUndefined false))
               Fixture.overwriteTree task).2 !! "/work/dest/hello.js"
  = Some (File "B" 5)
  /\ (Cpy.runTask (Cpy.readOptions Sample.host
                     (Cli.cpyOptions (Fixture.withFlags false false true None)
                                     VUndefined false))
                  Fixture.overwriteTree task).2 !! "/work/dest/hello.js"
     = Some (File "A" 10).
Proof.
  intros task. split.
  - rewrite (proj1 (overwrite_gate Sample.host
                      (Fixture.withFlags false false false None) VUndefined false
                      Fixture.overwriteTree task eq_refl) eq_refl).
    + reflexivity.
    + vm_compute. eauto.
  - rewrite (proj1 (proj2 (overwrite_gate Sample.host
                      (Fixture.withFlags false false true None) VUndefined false
                      Fixture.overwriteTree task eq_refl)) eq_refl "A" 10%Z).
    + reflexivity.
    + reflexivity.
    + right. exists "B", 5%Z. reflexivity.
Defined.

(** ** Dry run *)

Section DryRun.

Variable o : Cpy.CopyOptions.
Hypothesis dry : Cpy.dryRun o = true.

(** A dry run leaves the file system as it is. *)
Lemma runTask_dry (fs : FS) (task : CopyRecord) :
  (Cpy.runTask o fs task).2 = fs.
Proof.
  unfold Cpy.runTask. rewrite dry.
  by destruct (Cpy.updateGate o fs _ _) as [[|]|].
Qed.

Lemma run_dry_fs (fs : FS) (tasks : list CopyRecord) :
  fs_after (Cpy.run o fs tasks) = fs.
Proof.
  induction tasks as [|task tasks IH]; [done|]. simpl.
  pose proof (runTask_dry fs task) as Hfs.
  destruct (Cpy.runTask o fs task) as [[[done|]|error] fs']; simpl in *; by subst.
Qed.

(** One report per would-be copy, in the order of the copy set: the
    reports are the tasks the update gate lets through. *)
Lemma run_dry_reports (fs : FS) (tasks : list CopyRecord) (files : list CopyRecord) :
  result (Cpy.run o fs tasks) = Normal files ->
  events (Cpy.run o fs tasks) = files
  /\ files = filter (fun task => Cpy.passes o fs task = true) tasks.
Proof.
  revert files. induction tasks as [|task tasks IH]; intros files; simpl.
  { by intros [= <-]. }
  unfold Cpy.runTask. rewrite dry.
  destruct (Cpy.updateGate o fs _ _) as [[|]|] eqn:Hgate; simpl.
  - destruct (result (Cpy.run o fs tasks)) as [later|] eqn:Hlater; [|done].
    intros [= <-]. destruct (IH later eq_refl) as [-> Hfilter].
    rewrite filter_cons_True by (unfold Cpy.passes; by rewrite Hgate).
    by rewrite <- Hfilter.
  - intros Hfiles. destruct (IH files Hfiles) as [-> Hfilter].
    by rewrite filter_cons_False by (unfold Cpy.passes; by rewrite Hgate).
  - done.
Qed.

(** Without update mode every task is a would-be copy. *)
Lemma run_dry_all (fs : FS) (tasks : list CopyRecord) :
  Cpy.update o = false ->
  Cpy.run o fs tasks
  = {| events := tasks; result := Normal tasks; fs_after := fs |}.
Proof.
  intros Hupdate. induction tasks as [|task tasks IH]; [done|]. simpl.
  unfold Cpy.runTask, Cpy.updateGate. rewrite Hupdate, dry. simpl.
  by rewrite IH.
Qed.

(** When the update policy lets no task through, nothing is reported. *)
Lemma run_dry_nothing (fs : FS) (tasks : list CopyRecord) :
  Forall (fun task =>
            Cpy.updateGate o fs (sourcePath task) (destinationPath task)
            = Normal false) tasks ->
  Cpy.run o fs tasks = {| events := []; result := Normal []; fs_after := fs |}.
Proof.
  induction 1 as [|task tasks Hgate _ IH]; [done|]. simpl.
  unfold Cpy.runTask. by rewrite Hgate.
Qed.

End DryRun.

(** The listing of a dry run through [cli.js]: the copy set is printed in
  match order, one line per would-be copy, and no file is written. *)
Lemma dry_run_lists_the_copy_set (h : Host) (cli : Cli.Meow) (fs : FS)
    (call : Cli.CpyCall) (destination : string) :
  let copySet := Cpy.tasks h (Cpy.readOptions h (Cli.call_options call)) fs
                           (Cli.call_input call) destination in
  Cli.invocation h cli fs = Normal call ->
  Cli.dryRun (Cli.flags cli) = true ->
  Cli.call_destination call = Some destination ->
  Cpy.positive (Cli.call_input call) <> [] ->
  copySet <> [] ->
  Cli.main (Cpy.cpy h) h cli (Cli.start fs)
  = (Cli.Returned (),
     {| Cli.stdout := map (Cli.line h) copySet; Cli.stderr := []; Cli.files := fs |}).
Proof.
  intros copySet Hcall Hdry Hdest Hpositive HcopySet.
  rewrite main_cases, Hcall. cbv zeta. unfold Cli.engineOutcome.
  rewrite Hdest. unfold Cpy.cpy. fold copySet.
  destruct (invocation_options h cli fs call Hcall)
    as (rename & flat & Hoptions & _).
  assert (Cpy.run (Cpy.readOptions h (Cli.call_options call)) fs copySet
          = {| events := copySet; result := Normal copySet; fs_after := fs |})
    as Hrun.
  { apply run_dry_all; rewrite Hoptions, readOptions_cpyOptions; done. }
  destruct (Cpy.positive (Cli.call_input call)) as [|named others]; [done|].
  destruct copySet as [|task copySet'] eqn:HcopySet'; [done|].
  rewrite Hrun. simpl. by rewrite Hdry.
Qed.

(** ** The single-file shortcut (lines 96-117) *)

Section Shortcut.

Variable h : Host.

Lemma pop_snoc (sources : list string) (destination : string) :
  Cli.pop (sources ++ [destination]) = (Some destination, sources).
Proof. unfold Cli.pop. by rewrite last_snoc, removelast_last. Qed.

Lemma pop_Some (input : list string) (destination : string) :
  (Cli.pop input).1 = Some destination ->
  input = (Cli.pop input).2 ++ [destination].
Proof.
  unfold Cli.pop. simpl. intros [sources ->]%last_Some.
  by rewrite removelast_last.
Qed.

Lemma globForm_check (source : string) :
  Cli.str (Cli.sourcePatternForDynamicCheck h [source]) = Spec.globForm h source.
Proof.
  unfold Cli.sourcePatternForDynamicCheck, Spec.globForm. simpl.
  destruct (decide (process_platform h = "win32")).
  - by rewrite bool_decide_true.
  - by rewrite bool_decide_false.
Qed.

Lemma fileToFile_shortcut (flags : Cli.Flags) (fs : FS) (input : list string) :
  Cli.fileToFile h flags fs (Cli.sourcePatterns (Cli.pop input).2) (Cli.pop input).1
  = Normal true
  <-> Spec.shortcut h fs (Cli.cwd flags) input.
Proof.
  unfold Cli.fileToFile, Spec.shortcut. split.
  - destruct (Cli.sourcePatterns (Cli.pop input).2) as [|source [|]] eqn:Hsources;
      try done.
    destruct (Cli.pop input).1 as [destination|] eqn:Hdest; [|done].
    cbn [length Nat.eqb andb]. unfold Cli.hasDestination.
    rewrite bool_decide_true by eauto. rewrite globForm_check.
    destruct (isDynamicPattern h _) as [dynamic|error] eqn:Hglob; [|done].
    intros [= Hrest]. revert Hrest. rewrite !andb_true_iff, !negb_true_iff.
    unfold Cli.hasTrailingSeparator. simpl.
    intros [[[-> Hsource] Hsep] Htarget].
    exists (Cli.pop input).2, source, destination.
    split; [by apply pop_Some|]. split; [done|]. split; [done|].
    split; [by apply directoryAt_false|]. split; [done|].
    by apply directoryAt_false.
  - intros (sources & source & destination & -> & Hsources & Hglob & Hsource
            & Hsep & Htarget).
    rewrite pop_snoc. simpl. rewrite Hsources. simpl.
    rewrite globForm_check. unfold Cli.hasTrailingSeparator. simpl.
    apply directoryAt_false in Hsource, Htarget.
    by rewrite Hglob, Hsource, Hsep, Htarget.
Qed.

(** What the shortcut test comes to when the invocation is not
    reclassified: it answers no, or the glob test throws. *)
Lemma fileToFile_otherwise (cli : Cli.Meow) (fs : FS) :
  ~ Cli.reclassified h cli fs ->
  Cli.fileToFile h (Cli.flags cli) fs
    (Cli.sourcePatterns (Cli.pop (Cli.input cli)).2) (Cli.pop (Cli.input cli)).1
  = Normal false
  \/ exists source error,
       Cli.sourcePatterns (Cli.pop (Cli.input cli)).2 = [source]
       /\ is_Some (Cli.pop (Cli.input cli)).1
       /\ isDynamicPattern h (Spec.globForm h source) = Throw error
       /\ Cli.fileToFile h (Cli.flags cli) fs
            (Cli.sourcePatterns (Cli.pop (Cli.input cli)).2)
            (Cli.pop (Cli.input cli)).1
          = Throw error.
Proof.
  rewrite reclassified_fileToFile. intros Hno.
  destruct (Cli.fileToFile _ _ _ _ _) as [[|]|error] eqn:Hvalue; [done|by left|].
  right. unfold Cli.fileToFile in Hvalue.
  destruct ((length _ =? 1) && Cli.hasDestination _) eqn:Hoperands; [|done].
  apply andb_true_iff in Hoperands as [Hone Hdest]. apply Nat.eqb_eq in Hone.
  destruct (Cli.sourcePatterns (Cli.pop (Cli.input cli)).2) as [|source [|]];
    try done.
  rewrite globForm_check in Hvalue.
  destruct (isDynamicPattern h _) as [dynamic|thrown] eqn:Hglob; [done|].
  injection Hvalue as ->. exists source, error.
  split; [done|]. split; [|done].
  by apply bool_decide_eq_true in Hdest.
Qed.

End Shortcut.

(** C2, as the program has it: an invocation is reclassified as a single
  file-to-file copy if and only if the arguments before the destination
  hold exactly one pattern that does not start with [!] (negated patterns
  are not counted), a destination is present, that pattern (with
  backslashes read as slashes on Windows) is not a dynamic glob pattern
  and does not resolve to an existing directory, and the destination
  neither ends with a slash or backslash nor resolves to an existing
  directory.  The engine is then called with the destination's parent as
  destination, flatten on, and a rename rule that names every copy after
  the destination's basename, so a matched source is resolved to that
  file name; otherwise the arguments are passed on as given, unless the
  glob test on the single source pattern throws, and then the engine is
  not called. *)
Theorem shortcut_reclassification (h : Host) (cli : Cli.Meow) (fs : FS) :
  (Cli.reclassified h cli fs
   <-> Spec.shortcut h fs (Cli.cwd (Cli.flags cli)) (Cli.input cli))
  /\ (Cli.reclassified h cli fs ->
      forall destination,
        last (Cli.input cli) = Some destination ->
        Cli.invocation h cli fs
        = Normal
            {| Cli.call_input := removelast (Cli.input cli);
               Cli.call_destination := Some (path_dirname h destination);
               Cli.call_options :=
                 Cli.cpyOptions (Cli.flags cli)
                   (VRename (fun _ => path_basename h destination)) true |}
        /\ forall call destinationDir entry,
             Cli.invocation h cli fs = Normal call ->
             Cpy.resolveDestination h
               (Cpy.readOptions h (Cli.call_options call)) destinationDir entry
             = path_join h
                 (path_dirname h
                    (path_join h destinationDir (path_basename h entry.1)))
                 (path_basename h destination))
  /\ (~ Cli.reclassified h cli fs ->
      Cli.invocation h cli fs
      = Normal
          {| Cli.call_input := removelast (Cli.input cli);
             Cli.call_destination := last (Cli.input cli);
             Cli.call_options :=
               Cli.cpyOptions (Cli.flags cli)
                 (Cli.renameFlag (Cli.rename (Cli.flags cli)))
                 (Cli.flat (Cli.flags cli)) |}
      \/ exists source error,
           Cli.sourcePatterns (removelast (Cli.input cli)) = [source]
           /\ is_Some (last (Cli.input cli))
           /\ isDynamicPattern h (Spec.globForm h source) = Throw error
           /\ Cli.invocation h cli fs = Throw error).
Proof.
  split; [|split].
  - rewrite reclassified_fileToFile. apply fileToFile_shortcut.
  - intros Hyes%reclassified_fileToFile destination Hlast.
    unfold Cli.invocation. simpl in *.
    rewrite Hyes, Hlast. simpl. split; [done|].
    intros call destinationDir entry [= <-]. simpl.
    rewrite readOptions_cpyOptions. reflexivity.
  - intros Hno. unfold Cli.invocation.
    destruct (fileToFile_otherwise h cli fs Hno)
      as [Hvalue|(source & error & Hsources & Hdest & Hglob & Hvalue)];
      rewrite Hvalue.
    + by left.
    + right. by exists source, error.
Qed.

Lemma shortcut_reclassification_witness :
  Cli.invocation Sample.host
    {| Cli.input := ["hello.js"; "target.js"]; Cli.flags := Sample.flags |}
    Fixture.overwriteTree
  = Normal
      {| Cli.call_input := ["hello.js"];
         Cli.call_destination := Some ".";
         Cli.call_options :=
           Cli.cpyOptions Sample.flags (VRename (fun _ => "target.js")) true |}.
Proof.
  pose proof (shortcut_reclassification Sample.host
                {| Cli.input := ["hello.js"; "target.js"]; Cli.flags := Sample.flags |}
                Fixture.overwriteTree) as (Hiff & Hyes & _).
  refine (proj1 (Hyes (proj2 Hiff _) "target.js" eq_refl)).
  exists ["hello.js"], "hello.js", "target.js".
  repeat split; try reflexivity.
  - intros [modified Hdir]. vm_compute in Hdir. discriminate.
  - intros [modified Hdir]. vm_compute in Hdir. discriminate.
Defined.

(** Line 101 at work: a backslash is a separator on Windows and an escape
    character elsewhere, so the same command line is a file-to-file copy on
    the Windows host only. *)
Lemma windows_separator_example :
  Cli.reclassified Sample.win32
    {| Cli.input := ["sub\a.txt"; "target.txt"]; Cli.flags := Sample.flags |}
    Fixture.flatTree
  /\ ~ Cli.reclassified Sample.host
        {| Cli.input := ["sub\a.txt"; "target.txt"]; Cli.flags := Sample.flags |}
        Fixture.flatTree.
Proof. split; [by vm_compute|]. intros H. vm_compute in H. discriminate. Qed.

(** C2 as it is worded fails: with a negated pattern next to the single
  source there are two source arguments, and the invocation is
  reclassified all the same. *)
Lemma shortcut_counts_positive_patterns_only :
  ~ (Cli.reclassified Sample.host
       {| Cli.input := ["a.txt"; "!b.txt"; "target.txt"]; Cli.flags := Sample.flags |}
       Fixture.flatTree
     <-> Spec.shortcutAsWorded Sample.host Fixture.flatTree "/work"
           ["a.txt"; "!b.txt"; "target.txt"]).
Proof.
  intros [Hworded _].
  destruct Hworded as (source & destination & Hargs & _); [|discriminate].
  vm_compute. reflexivity.
Qed.

(** ** The update flag *)

(** C1 on the program: the options object of the engine call never has an
  [update] property, so the engine runs with update mode off whatever
  the command line says.  With [--update], a source older than its
  destination is copied over it, although the update policy, had it
  been consulted, would have skipped the copy. *)
Theorem update_flag_is_not_forwarded :
  (forall h cli fs call,
     Cli.invocation h cli fs = Normal call ->
     Cli.call_options call !! "update" = None
     /\ Cpy.update (Cpy.readOptions h (Cli.call_options call)) = false
     /\ forall files source destination,
          Cpy.updateGate (Cpy.readOptions h (Cli.call_options call))
                         files source destination = Normal true)
  /\ Cli.update (Fixture.withFlags true false true None) = true
  /\ (Fixture.run (Fixture.withFlags true false true None) Fixture.staleTree
                  ["source.txt"; "dest"]).1 = Cli.Returned ()
  /\ Cli.files (Fixture.run (Fixture.withFlags true false true None)
                            Fixture.staleTree ["source.txt"; "dest"]).2
     !! "/work/dest/source.txt" = Some (File "source-old" 1)
  /\ Cpy.updateGate
       (Cpy.readOptions Sample.host
          (<["update" := VBool true]>
             (Cli.cpyOptions (Fixture.withFlags true false true None)
                             VUndefined false)))
       Fixture.staleTree "/work/source.txt" "/work/dest/source.txt"
     = Normal false.
Proof.
  split; [|by vm_compute].
  intros h cli fs call Hcall.
  destruct (invocation_options h cli fs call Hcall)
    as (rename & flat & -> & _).
  by rewrite readOptions_cpyOptions.
Qed.

(** The examples of the specification, run through the program: the
    overwrite gate, and a single file copied to a new file name. *)
Lemma overwrite_examples :
  Fixture.run (Fixture.withFlags false false false None) Fixture.overwriteTree
              ["hello.js"; "dest"]
  = (Cli.Exited 1,
     {| Cli.stdout := [];
        Cli.stderr := [Cpy.describe (Cpy.AlreadyExistsError "/work/hello.js"
                                                            "/work/dest/hello.js")];
        Cli.files := Fixture.overwriteTree |})
  /\ Fixture.overwriteTree !! "/work/dest/hello.js" = Some (File "B" 5)
  /\ Fixture.run Sample.flags Fixture.overwriteTree ["hello.js"; "dest"]
     = (Cli.Returned (),
        {| Cli.stdout := []; Cli.stderr := [];
           Cli.files := <["/work/dest/hello.js" := File "A" 10]>
                          Fixture.overwriteTree |}).
Proof. by vm_compute. Qed.

Lemma single_file_copy_example :
  Fixture.run Sample.flags Fixture.overwriteTree ["hello.js"; "target.js"]
  = (Cli.Returned (),
     {| Cli.stdout := []; Cli.stderr := [];
        Cli.files := <["/work/target.js" := File "A" 10]> Fixture.overwriteTree |})
  /\ (<["/work/target.js" := File "A" 10]> Fixture.overwriteTree : FS)
     !! "/work/target.js/hello.js" = None.
Proof. by vm_compute. Qed.

(** C3 on the program: a dry run with [--update] over a destination that is
  newer than its source still prints the copy, because the update policy
  is never consulted (the defect of C1); the update gate on the same
  files says that nothing needs copying.  (What holds of dry runs in
  general is [dry_run_lists_the_copy_set], [run_dry_fs] and
  [run_dry_nothing].) *)
Theorem dry_run_update_still_lists :
  Fixture.run (Fixture.withFlags true true true None) Fixture.staleTree
              ["source.txt"; "dest"]
  = (Cli.Returned (),
     {| Cli.stdout := ["source.txt → dest/source.txt"];
        Cli.stderr := [];
        Cli.files := Fixture.staleTree |})
  /\ Cpy.updateGate
       (Cpy.readOptions Sample.host
          (<["update" := VBool true]>
             (Cli.cpyOptions (Fixture.withFlags true true true None)
                             VUndefined false)))
       Fixture.staleTree "/work/source.txt" "/work/dest/source.txt"
     = Normal false.
Proof. by vm_compute. Qed.

(** ** The rename template on concrete names *)

(** The examples of the specification. *)
Lemma renameTemplate_examples :
  Cli.renameTemplate "hi-{{basename}}"
    {| source_path := "/work/hello.js"; nameWithoutExtension := "hello";
       extension := "js" |} = "hi-hello.js"
  /\ Cli.renameTemplate "{{basename}}-copy-{{basename}}"
       {| source_path := "/work/hello.js"; nameWithoutExtension := "hello";
          extension := "js" |} = "hello-copy-hello.js"
  /\ Cli.renameTemplate "hi-{{basename}}"
       {| source_path := "/work/.gitignore"; nameWithoutExtension := ".gitignore";
          extension := EmptyString |} = "hi-.gitignore".
Proof. by vm_compute. Qed.

(** Template mode exactly when the rename string holds the placeholder. *)
Lemma renameFlag_modes (rename : string) :
  Cli.renameFlag (Some rename)
  = if Js.includes rename Cli.stringTemplate
    then VRename (Cli.renameTemplate rename)
    else VString rename.
Proof. reflexivity. Qed.

(** C5 on the program: the placeholder is replaced through
  [String.prototype.replaceAll] with the name as replacement text, in
  which [$$], [$&], [$`] and [$'] are replacement patterns.  For the
  source [a$$b.js] the template [hi-{{basename}}] gives [hi-a$b.js], not
  [hi-a$$b.js], and a name [$&] gives the placeholder back; the run of
  the program copies [a$$b.js], matched by [*.js], to [dest/hi-a$b.js]. *)
Theorem rename_template_rewrites_dollar_patterns :
  Cli.renameTemplate "hi-{{basename}}"
    {| source_path := "/work/a$$b.js"; nameWithoutExtension := "a$$b";
       extension := "js" |} = "hi-a$b.js"
  /\ Cli.renameTemplate "hi-{{basename}}"
       {| source_path := "/work/$&.js"; nameWithoutExtension := "$&";
          extension := "js" |} = "hi-{{basename}}.js"
  /\ ~ Cli.reclassified Sample.host
        {| Cli.input := ["*.js"; "dest"];
           Cli.flags := Fixture.withFlags false false true (Some "hi-{{basename}}") |}
        Fixture.dollarTree
  /\ (Fixture.run (Fixture.withFlags false false true (Some "hi-{{basename}}"))
                  Fixture.dollarTree ["*.js"; "dest"]).1 = Cli.Returned ()
  /\ Cli.files (Fixture.run (Fixture.withFlags false false true
                                               (Some "hi-{{basename}}"))
                            Fixture.dollarTree ["*.js"; "dest"]).2
     !! "/work/dest/hi-a$b.js" = Some (File "x" 1)
  /\ Cli.files (Fixture.run (Fixture.withFlags false false true
                                               (Some "hi-{{basename}}"))
                            Fixture.dollarTree ["*.js"; "dest"]).2
     !! "/work/dest/hi-a$$b.js" = None.
Proof.
  split; [by vm_compute|]. split; [by vm_compute|].
  split; [|by vm_compute].
  intros Hyes. vm_compute in Hyes. discriminate.
Qed.

(* ===================================================================== *)
(** * Further properties of [cli.js]                                      *)
(* ===================================================================== *)

(** ** Substrings *)

Section Substrings.

Lemma startsWith_prefix (search s : string) :
  Js.startsWith s search = true <-> exists rest, s = search +:+ rest.
Proof.
  revert s. induction search as [|c search IH]; intros s; simpl.
  - split; [by exists s | done].
  - destruct s as [|d s].
    + split; [done | by intros [rest Hrest]].
    + destruct (decide (c = d)) as [<-|Hne].
      * rewrite IH. split; intros [rest Hrest]; exists rest.
        -- by rewrite append_cons, <- Hrest.
        -- rewrite append_cons in Hrest. by injection Hrest.
      * split; [done|]. intros [rest Hrest].
        rewrite append_cons in Hrest. by injection Hrest.
Qed.

Lemma includes_substring (search s : string) :
  Js.includes s search = true
  <-> exists before after, s = before +:+ search +:+ after.
Proof.
  induction s as [|c s IH].
  - simpl. rewrite orb_false_r, startsWith_prefix. split.
    + intros [rest Hrest]. by exists EmptyString, rest.
    + intros (before & after & Hs). destruct before; [|done].
      by exists after.
  - cbn [Js.includes]. rewrite orb_true_iff, startsWith_prefix, IH. split.
    + intros [[rest Hrest]|(before & after & ->)].
      * by exists EmptyString, rest.
      * by exists (String c before), after.
    + intros (before & after & Hs). destruct before as [|d before].
      * left. by exists after.
      * right. rewrite append_cons in Hs. injection Hs as -> ->.
        by exists before, after.
Qed.

End Substrings.

(** ** Lines 10-16, 79-82 and 87-93 *)

(** X1: [isDirectory] answers [true] exactly for a path that holds an
    existing directory (a file, a missing path and a path whose metadata
    cannot be read all give [false]), and it leaves the output streams and
    the file system as they are. *)
Theorem isDirectory_answers (w : Cli.World) (filePath : string) :
  exists answer,
    Cli.isDirectory filePath w = (Cli.Returned answer, w)
    /\ (answer = true <-> Spec.existingDirectory (Cli.files w) filePath).
Proof.
  exists (directoryAt (Cli.files w) filePath).
  split; [apply isDirectory_returns | apply directoryAt_true].
Qed.

(** X2: the default of [--concurrency] is at least 2 on every host: twice
    the number of CPUs when the host reports some, and 2 when it reports
    none. *)
Theorem default_concurrency (h : Host) :
  (2 <= Cli.concurrency (Cli.defaultFlags h))%Z
  /\ (0 < os_cpus_length h ->
      Cli.concurrency (Cli.defaultFlags h) = 2 * os_cpus_length h)%Z
  /\ (os_cpus_length h <= 0 -> Cli.concurrency (Cli.defaultFlags h) = 2)%Z.
Proof.
  unfold Cli.defaultFlags. simpl.
  destruct (Z.ltb_spec 0 (os_cpus_length h)); repeat split; lia.
Qed.

Lemma default_concurrency_witness :
  Cli.concurrency (Cli.defaultFlags Sample.host) = 8%Z.
Proof.
  rewrite (proj1 (proj2 (default_concurrency Sample.host))); [reflexivity|].
  vm_compute. reflexivity.
Defined.

(** A rename string is a template exactly when the placeholder occurs
    in it. *)
Lemma renameFlag_placeholder (rename : string) :
  (Spec.holdsPlaceholder rename ->
   Cli.renameFlag (Some rename) = VRename (Cli.renameTemplate rename))
  /\ (~ Spec.holdsPlaceholder rename ->
      Cli.renameFlag (Some rename) = VString rename).
Proof.
  unfold Cli.renameFlag, Spec.holdsPlaceholder.
  pose proof (includes_substring Cli.stringTemplate rename) as Hincludes.
  destruct (Js.includes rename Cli.stringTemplate).
  - split; [done|]. intros Hno. destruct Hno. by apply Hincludes.
  - split; [|done]. intros Hyes. apply Hincludes in Hyes. done.
Qed.

(** X3: the rename option of the engine call.  When the invocation is
    reclassified as a file-to-file copy, the option is the function that
    names every copy after the destination's basename, whatever
    [--rename] says.  Otherwise a rename string is a template exactly when
    the placeholder occurs in it, any other rename string is passed to the
    engine as it is, and without [--rename] the option is [undefined]. *)
Theorem rename_mode (h : Host) (cli : Cli.Meow) (fs : FS) (call : Cli.CpyCall) :
  Cli.invocation h cli fs = Normal call ->
  (Cli.reclassified h cli fs ->
   Cli.call_options call !! "rename"
   = Some (VRename (fun _ => path_basename h (Cli.str (last (Cli.input cli))))))
  /\ (~ Cli.reclassified h cli fs ->
      (forall rename,
         Cli.rename (Cli.flags cli) = Some rename ->
         (Spec.holdsPlaceholder rename ->
          Cli.call_options call !! "rename"
          = Some (VRename (Cli.renameTemplate rename)))
         /\ (~ Spec.holdsPlaceholder rename ->
             Cli.call_options call !! "rename" = Some (VString rename)))
      /\ (Cli.rename (Cli.flags cli) = None ->
          Cli.call_options call !! "rename" = Some VUndefined)).
Proof.
  intros Hcall. unfold Cli.invocation in Hcall. split.
  - intros Hyes%reclassified_fileToFile. rewrite Hyes in Hcall.
    by injection Hcall as <-.
  - intros Hno.
    destruct (fileToFile_otherwise h cli fs Hno)
      as [Hvalue|(source & error & _ & _ & _ & Hvalue)];
      rewrite Hvalue in Hcall; [|done].
    injection Hcall as <-. cbn [Cli.call_options].
    change (Cli.cpyOptions ?flags ?rename ?flat !! "rename") with (Some rename).
    split.
    + intros rename ->.
      destruct (renameFlag_placeholder rename) as [Htemplate Hliteral].
      split; intros Hplaceholder; f_equal; auto.
    + by intros ->.
Qed.

Lemma rename_mode_witness :
  Cli.cpyOptions (Fixture.withFlags false false true (Some "hi-{{basename}}-1"))
                 (VRename (fun _ => "target.js")) true !! "rename"
  = Some (VRename (fun _ => "target.js"))
  /\ Cli.cpyOptions (Fixture.withFlags false false true (Some "hi-{{basename}}-1"))
                    (VRename (Cli.renameTemplate "hi-{{basename}}-1")) false
     !! "rename"
     = Some (VRename (Cli.renameTemplate "hi-{{basename}}-1")).
Proof.
  split.
  - apply (proj1 (rename_mode Sample.host
                    {| Cli.input := ["hello.js"; "target.js"];
                       Cli.flags := Fixture.withFlags false false true
                                      (Some "hi-{{basename}}-1") |}
                    Fixture.overwriteTree
                    {| Cli.call_input := ["hello.js"];
                       Cli.call_destination := Some ".";
                       Cli.call_options :=
                         Cli.cpyOptions
                           (Fixture.withFlags false false true
                              (Some "hi-{{basename}}-1"))
                           (VRename (fun _ => "target.js")) true |}
                    eq_refl)).
    by vm_compute.
  - refine (proj1 (proj1 (proj2 (rename_mode Sample.host
                    {| Cli.input := ["hello.js"; "dest"];
                       Cli.flags := Fixture.withFlags false false true
                                      (Some "hi-{{basename}}-1") |}
                    Fixture.overwriteTree
                    {| Cli.call_input := ["hello.js"];
                       Cli.call_destination := Some "dest";
                       Cli.call_options :=
                         Cli.cpyOptions
                           (Fixture.withFlags false false true
                              (Some "hi-{{basename}}-1"))
                           (VRename (Cli.renameTemplate "hi-{{basename}}-1"))
                           false |}
                    eq_refl) _) "hi-{{basename}}-1" eq_refl) _).
    + intros Hyes. vm_compute in Hyes. discriminate.
    + by exists "hi-", "-1".
Defined.

(** ** The template rule on every template (lines 90-92) *)

Section TemplateRule.

(** The placeholder has no proper prefix that is also a suffix of it, so
    no occurrence starts in placeholder-free text and runs into a
    placeholder that follows it. *)
Lemma placeholder_no_straddle (piece rest : string) :
  piece <> EmptyString ->
  Js.startsWith piece Cli.stringTemplate = false ->
  Js.startsWith (piece +:+ Cli.stringTemplate +:+ rest) Cli.stringTemplate = false.
Proof.
  unfold Cli.stringTemplate.
  destruct piece as [|c piece]; [done|]. intros _.
  do 11 (rewrite append_cons; simpl;
         destruct (decide (_ = c)) as [<-|]; [|done];
         destruct piece as [|c piece]; [intros _; vm_compute; reflexivity|]).
  rewrite append_cons. simpl. destruct (decide (_ = c)) as [<-|]; [|done].
  done.
Qed.

Variable name : string.
Hypothesis name_plain : Spec.free "$" name.

(** Placeholder-free text before a placeholder is kept. *)
Lemma replaceAll_before_placeholder (piece before rest : string) :
  Js.includes piece Cli.stringTemplate = false ->
  Js.replaceAll_from Cli.stringTemplate name before
                     (piece +:+ Cli.stringTemplate +:+ rest) 0
  = piece +:+ Js.replaceAll_from Cli.stringTemplate name (before +:+ piece)
                (Cli.stringTemplate +:+ rest) 0.
Proof.
  revert before. induction piece as [|c piece IH]; intros before Hfree.
  - by rewrite !append_empty_l, append_empty_r.
  - cbn [Js.includes] in Hfree. apply orb_false_iff in Hfree as [Hhere Hlater].
    pose proof (placeholder_no_straddle (String c piece) rest
                  ltac:(done) Hhere) as Hstraddle.
    rewrite !append_cons in *. cbn [Js.replaceAll_from].
    rewrite Hstraddle, IH by done.
    by rewrite append_associative, append_cons, append_empty_l.
Qed.

(** Placeholder-free text at the end is kept. *)
Lemma replaceAll_last_piece (piece before : string) :
  Js.includes piece Cli.stringTemplate = false ->
  Js.replaceAll_from Cli.stringTemplate name before piece 0 = piece.
Proof.
  revert before. induction piece as [|c piece IH]; intros before Hfree; [done|].
  cbn [Js.includes] in Hfree. apply orb_false_iff in Hfree as [Hhere Hlater].
  cbn [Js.replaceAll_from]. by rewrite Hhere, IH.
Qed.

Lemma replaceAll_pieces (pieces : list string) (before : string) :
  Forall (fun piece => Js.includes piece Cli.stringTemplate = false) pieces ->
  Js.replaceAll_from Cli.stringTemplate name before
                     (Spec.between Cli.stringTemplate pieces) 0
  = Spec.between name pieces.
Proof.
  revert before. induction pieces as [|piece rest IH]; intros before Hfree; [done|].
  apply Forall_cons in Hfree as [Hpiece Hrest].
  destruct rest as [|next rest].
  - by apply replaceAll_last_piece.
  - change (Spec.between Cli.stringTemplate (piece :: next :: rest))
      with (piece +:+ Cli.stringTemplate
                  +:+ Spec.between Cli.stringTemplate (next :: rest)).
    change (Spec.between name (piece :: next :: rest))
      with (piece +:+ name +:+ Spec.between name (next :: rest)).
    rewrite replaceAll_before_placeholder by done.
    rewrite replaceAll_placeholder by done.
    by rewrite IH.
Qed.

End TemplateRule.

Section Pieces.

(** The first placeholder of a text: nothing before it holds one. *)
Lemma first_placeholder (template : string) :
  Js.includes template Cli.stringTemplate = true ->
  exists before after,
    template = before +:+ Cli.stringTemplate +:+ after
    /\ Js.includes before Cli.stringTemplate = false.
Proof.
  induction template as [|c template IH]; [done|].
  cbn [Js.includes].
  destruct (Js.startsWith (String c template) Cli.stringTemplate) eqn:Hhere.
  - intros _. apply startsWith_prefix in Hhere as [after Hafter].
    by exists EmptyString, after.
  - simpl. intros (before & after & -> & Hfree)%IH.
    exists (String c before), after. split; [done|].
    cbn [Js.includes]. rewrite Hfree, orb_false_r.
    destruct (Js.startsWith (String c before) Cli.stringTemplate) eqn:Hshort;
      [|done].
    apply startsWith_prefix in Hshort as [rest Hrest].
    assert (Js.startsWith (String c (before +:+ Cli.stringTemplate +:+ after))
                          Cli.stringTemplate = true) as Hlong; [|congruence].
    apply startsWith_prefix. exists (rest +:+ Cli.stringTemplate +:+ after).
    by rewrite <- append_cons, Hrest, append_associative.
Qed.

Lemma length_append (s t : string) :
  String.length (s +:+ t) = String.length s + String.length t.
Proof. induction s as [|c s IH]; [done|]. rewrite append_cons. simpl. by rewrite IH. Qed.

(** Every text is cut at its placeholders into placeholder-free pieces. *)
Lemma pieces_exist (template : string) :
  exists pieces,
    Forall (fun piece => Js.includes piece Cli.stringTemplate = false) pieces
    /\ template = Spec.between Cli.stringTemplate pieces.
Proof.
  remember (String.length template) as n eqn:Hn.
  revert template Hn. induction (lt_wf n) as [n _ IH]. intros template ->.
  destruct (Js.includes template Cli.stringTemplate) eqn:Hany.
  - apply first_placeholder in Hany as (before & after & -> & Hfree).
    destruct (IH (String.length after)) with (template := after)
      as (pieces & Hpieces & ->); [|done|].
    { rewrite !length_append. simpl. lia. }
    destruct pieces as [|piece pieces].
    + exists [before; EmptyString]. split; [by repeat constructor|].
      by rewrite append_empty_r.
    + exists (before :: piece :: pieces). split; [by constructor|done].
  - exists [template]. split; [by repeat constructor|done].
Qed.

End Pieces.

(** X4: for a source whose name holds no dollar sign, the template rule
    replaces every placeholder of any template: cut the template at its
    placeholders into placeholder-free pieces (every template has such a
    cut); the new file name is the pieces with the name between them,
    followed by a dot and the extension when the extension is not empty. *)
Theorem template_rule (template : string) (source : SourceFile) :
  Spec.free "$" (nameWithoutExtension source) ->
  exists pieces,
    Forall (fun piece => ~ Spec.holdsPlaceholder piece) pieces
    /\ template = Spec.between Cli.stringTemplate pieces
    /\ Cli.renameTemplate template source
       = Spec.withExtension
           (Spec.between (nameWithoutExtension source) pieces)
           (extension source).
Proof.
  intros Hplain.
  destruct (pieces_exist template) as (pieces & Hpieces & ->).
  exists pieces. split; [|split; [done|]].
  - eapply Forall_impl; [exact Hpieces|]. intros piece Hfree Hholds.
    apply includes_substring in Hholds. congruence.
  - unfold Cli.renameTemplate, Js.replaceAll.
    rewrite replaceAll_pieces by done.
    destruct (extension source); [apply append_empty_r | done].
Qed.

Lemma template_rule_witness :
  exists pieces,
    "{{basename}}-copy-{{basename}}" = Spec.between Cli.stringTemplate pieces
    /\ Cli.renameTemplate "{{basename}}-copy-{{basename}}"
         {| source_path := "/work/hello.js"; nameWithoutExtension := "hello";
            extension := "js" |}
       = Spec.withExtension (Spec.between "hello" pieces) "js".
Proof.
  destruct (template_rule "{{basename}}-copy-{{basename}}"
              {| source_path := "/work/hello.js"; nameWithoutExtension := "hello";
                 extension := "js" |})
    as (pieces & _ & Hcut & Hname).
  - simpl. repeat split; discriminate.
  - exists pieces. split; [exact Hcut | exact Hname].
Defined.

(** ** Operands and the shortcut test (lines 97-117) *)

Section Operands.

Variable h : Host.

Lemma endsWithSeparator_last (s : string) :
  Js.endsWithSeparator s = true
  <-> exists prefix c,
        s = prefix +:+ String c EmptyString /\ (c = "\"%char \/ c = "/"%char).
Proof.
  induction s as [|d s IH].
  - split; [done|]. intros (prefix & c & Hs & _). by destruct prefix.
  - destruct s as [|e s].
    + simpl. rewrite orb_true_iff, !bool_decide_eq_true. split.
      * intros Hd. by exists EmptyString, d.
      * intros (prefix & c & Hs & Hc). destruct prefix as [|? prefix].
        -- by injection Hs as ->.
        -- rewrite append_cons in Hs. injection Hs as _ Hs. by destruct prefix.
    + change (Js.endsWithSeparator (String d (String e s)))
        with (Js.endsWithSeparator (String e s)).
      rewrite IH. split.
      * intros (prefix & c & Hs & Hc). exists (String d prefix), c.
        by rewrite append_cons, <- Hs.
      * intros (prefix & c & Hs & Hc). destruct prefix as [|? prefix]; [done|].
        rewrite append_cons in Hs. injection Hs as _ Hs. by exists prefix, c.
Qed.

(** The characters of a pattern as the glob test sees them on Windows. *)
Lemma replaceAll_backslash (before s : string) :
  Js.replaceAll_from "\" "/" before s 0 = Spec.mapChars Spec.slashed s.
Proof.
  revert before. induction s as [|c s IH]; intros before; [done|].
  cbn [Js.replaceAll_from Js.startsWith Spec.mapChars]. unfold Spec.slashed.
  destruct (decide ("\"%char = c)) as [<-|Hne].
  - simpl. by rewrite IH.
  - rewrite IH. by destruct (decide (c = "\"%char)).
Qed.

Lemma mapChars_slashed_free (s : string) :
  Spec.free "\" (Spec.mapChars Spec.slashed s).
Proof.
  induction s as [|c s IH]; [done|]. simpl. split; [|done].
  unfold Spec.slashed. by destruct (decide (c = "\"%char)).
Qed.

Lemma mapChars_length (f : ascii -> ascii) (s : string) :
  String.length (Spec.mapChars f s) = String.length s.
Proof. induction s as [|c s IH]; [done|]. simpl. by rewrite IH. Qed.

End Operands.

(** X5: with fewer than two operands nothing is a source: the only operand,
    if any, is taken as the destination, the engine is called with an empty
    pattern list and the rename and flat flags as given, and the invocation
    is not reclassified as a file-to-file copy. *)
Theorem fewer_than_two_operands (h : Host) (cli : Cli.Meow) (fs : FS) :
  length (Cli.input cli) < 2 ->
  ~ Cli.reclassified h cli fs
  /\ Cli.invocation h cli fs
     = Normal
         {| Cli.call_input := [];
            Cli.call_destination := head (Cli.input cli);
            Cli.call_options :=
              Cli.cpyOptions (Cli.flags cli)
                (Cli.renameFlag (Cli.rename (Cli.flags cli)))
                (Cli.flat (Cli.flags cli)) |}.
Proof.
  intros Hfew.
  assert (Cli.pop (Cli.input cli) = (head (Cli.input cli), [])) as Hpop.
  { destruct (Cli.input cli) as [|only [|second rest]]; simpl in Hfew;
      [done|done|lia]. }
  assert (Cli.fileToFile h (Cli.flags cli) fs
            (Cli.sourcePatterns (Cli.pop (Cli.input cli)).2)
            (Cli.pop (Cli.input cli)).1 = Normal false) as Hvalue.
  { by rewrite Hpop. }
  split.
  - rewrite reclassified_fileToFile. by rewrite Hvalue.
  - unfold Cli.invocation. by rewrite Hvalue, Hpop.
Qed.

Lemma fewer_than_two_operands_witness :
  Cli.invocation Sample.host
    {| Cli.input := ["source.txt"]; Cli.flags := Sample.flags |} Fixture.flatTree
  = Normal
      {| Cli.call_input := [];
         Cli.call_destination := Some "source.txt";
         Cli.call_options := Cli.cpyOptions Sample.flags VUndefined false |}.
Proof.
  apply (proj2 (fewer_than_two_operands Sample.host
                  {| Cli.input := ["source.txt"]; Cli.flags := Sample.flags |}
                  Fixture.flatTree ltac:(simpl; lia))).
Defined.

(** X6: a destination whose last character is a slash or a backslash is
    never taken for a file name, on any platform and whatever exists on
    disk: the invocation is not reclassified, and the engine, when it is
    called, gets the destination and the rename and flat flags as given.
    (It is not called only when the glob test on the single source
    pattern throws.) *)
Theorem trailing_separator_keeps_directory_mode
    (h : Host) (cli : Cli.Meow) (fs : FS) (prefix : string) (c : ascii) :
  last (Cli.input cli) = Some (prefix +:+ String c EmptyString) ->
  c = "/"%char \/ c = "\"%char ->
  ~ Cli.reclassified h cli fs
  /\ (Cli.invocation h cli fs
      = Normal
          {| Cli.call_input := removelast (Cli.input cli);
             Cli.call_destination := Some (prefix +:+ String c EmptyString);
             Cli.call_options :=
               Cli.cpyOptions (Cli.flags cli)
                 (Cli.renameFlag (Cli.rename (Cli.flags cli)))
                 (Cli.flat (Cli.flags cli)) |}
      \/ exists source error,
           Cli.sourcePatterns (removelast (Cli.input cli)) = [source]
           /\ isDynamicPattern h (Spec.globForm h source) = Throw error
           /\ Cli.invocation h cli fs = Throw error).
Proof.
  intros Hlast Hc.
  assert (~ Cli.reclassified h cli fs) as Hno.
  { rewrite reclassified_fileToFile.
    unfold Cli.fileToFile, Cli.hasTrailingSeparator, Cli.pop. simpl.
    rewrite Hlast. simpl.
    assert (Js.endsWithSeparator (prefix +:+ String c EmptyString) = true) as ->.
    { apply endsWithSeparator_last. exists prefix, c. tauto. }
    destruct (_ && _); [|done].
    destruct (isDynamicPattern h _) as [dynamic|error]; [|done].
    by rewrite !andb_false_r. }
  split; [done|]. unfold Cli.invocation.
  destruct (fileToFile_otherwise h cli fs Hno)
    as [Hvalue|(source & error & Hsources & _ & Hglob & Hvalue)];
    rewrite Hvalue.
  - left. unfold Cli.pop. simpl. by rewrite Hlast.
  - right. by exists source, error.
Qed.

Lemma trailing_separator_keeps_directory_mode_witness :
  ~ Cli.reclassified Sample.host
      {| Cli.input := ["a.txt"; "newdir/"]; Cli.flags := Sample.flags |}
      Fixture.flatTree.
Proof.
  apply (proj1 (trailing_separator_keeps_directory_mode Sample.host
                  {| Cli.input := ["a.txt"; "newdir/"]; Cli.flags := Sample.flags |}
                  Fixture.flatTree "newdir" "/" eq_refl (or_introl eq_refl))).
Defined.

(** X7: the pattern handed to the glob test.  On Windows, with exactly one
    source pattern, it is that pattern with every backslash turned into a
    slash and no other character changed (same length, no backslash
    left); on any other platform, and with any other number of source
    patterns, it is the first source pattern as typed (or [undefined] when
    there is none). *)
Theorem pattern_for_dynamic_check (h : Host) (sources : list string) :
  (forall source,
     process_platform h = "win32" -> sources = [source] ->
     Cli.sourcePatternForDynamicCheck h sources
     = Some (Spec.mapChars Spec.slashed source)
     /\ Spec.free "\" (Spec.mapChars Spec.slashed source)
     /\ String.length (Spec.mapChars Spec.slashed source) = String.length source)
  /\ (process_platform h <> "win32" \/ length sources <> 1 ->
      Cli.sourcePatternForDynamicCheck h sources = sources !! 0).
Proof.
  unfold Cli.sourcePatternForDynamicCheck. split.
  - intros source Hwin ->. simpl. rewrite bool_decide_true by done. simpl.
    unfold Js.replaceAll. rewrite replaceAll_backslash.
    split; [done|]. split; [apply mapChars_slashed_free | apply mapChars_length].
  - intros [Hother|Hmany].
    + rewrite bool_decide_false by done. by rewrite andb_false_r.
    + destruct (Nat.eqb_spec (length sources) 1); [done|]. done.
Qed.

Lemma pattern_for_dynamic_check_witness :
  Cli.sourcePatternForDynamicCheck Sample.win32 ["src\sub\a.txt"]
  = Some "src/sub/a.txt"
  /\ Cli.sourcePatternForDynamicCheck Sample.host ["src\sub\a.txt"]
     = Some "src\sub\a.txt".
Proof.
  split.
  - rewrite (proj1 (proj1 (pattern_for_dynamic_check Sample.win32 ["src\sub\a.txt"])
                      "src\sub\a.txt" eq_refl eq_refl)).
    reflexivity.
  - rewrite (proj2 (pattern_for_dynamic_check Sample.host ["src\sub\a.txt"])).
    + reflexivity.
    + left. discriminate.
Defined.

(** ** The engine call and what is printed (lines 109-152) *)

Section OptionsObject.

Lemma cpyOptions_frame (flags : Cli.Flags) (rename : JsValue) (flat : bool) :
  Cli.cpyOptions flags rename flat
  = <["rename" := rename]> (<["flat" := VBool flat]>
      (Cli.cpyOptions flags VUndefined false)).
Proof. vm_compute. reflexivity. Qed.

Lemma cpyOptions_keys (flags : Cli.Flags) (rename : JsValue) (flat : bool) :
  dom (Cli.cpyOptions flags rename flat)
  = list_to_set ["cwd"; "base"; "rename"; "overwrite"; "dot"; "flat";
                 "concurrency"; "dryRun"; "onProgress"].
Proof. vm_compute. reflexivity. Qed.

End OptionsObject.

(** X8: whether or not the shortcut fires, the engine gets every operand
    but the last as its patterns (negated patterns included), and an
    options object with the same nine keys; the shortcut can change the
    values of [rename] and [flat] only, every other option being the
    flag's value, and [--flat] is never switched off. *)
Theorem shortcut_leaves_other_options
    (h : Host) (cli : Cli.Meow) (fs : FS) (call : Cli.CpyCall) :
  Cli.invocation h cli fs = Normal call ->
  Cli.call_input call = removelast (Cli.input cli)
  /\ dom (Cli.call_options call)
     = list_to_set ["cwd"; "base"; "rename"; "overwrite"; "dot"; "flat";
                    "concurrency"; "dryRun"; "onProgress"]
  /\ (forall key,
        key <> "rename" -> key <> "flat" ->
        Cli.call_options call !! key
        = Cli.cpyOptions (Cli.flags cli) VUndefined false !! key)
  /\ Cli.call_options call !! "overwrite"
     = Some (VBool (Cli.overwrite (Cli.flags cli)))
  /\ Cli.call_options call !! "dryRun"
     = Some (VBool (Cli.dryRun (Cli.flags cli)))
  /\ Cli.call_options call !! "cwd"
     = Some (VString (Cli.cwd (Cli.flags cli)))
  /\ (Cli.flat (Cli.flags cli) = true ->
      Cli.call_options call !! "flat" = Some (VBool true)).
Proof.
  intros Hcall.
  destruct (invocation_options h cli fs call Hcall)
    as (rename & flat & -> & Hflat & -> & _).
  split; [done|]. split; [apply cpyOptions_keys|].
  split; [|repeat split; try done].
  - intros key Hrename Hflag. rewrite cpyOptions_frame.
    by rewrite !lookup_insert_ne.
  - intros ->%Hflat. done.
Qed.

Lemma shortcut_leaves_other_options_witness :
  Cli.cpyOptions (Fixture.withFlags false false false (Some "x-{{basename}}"))
                 (VRename (fun _ => "target.js")) true !! "overwrite"
  = Some (VBool false).
Proof.
  exact (proj1 (proj2 (proj2 (proj2 (shortcut_leaves_other_options Sample.host
           {| Cli.input := ["hello.js"; "target.js"];
              Cli.flags := Fixture.withFlags false false false
                             (Some "x-{{basename}}") |}
           Fixture.overwriteTree
           {| Cli.call_input := ["hello.js"];
              Cli.call_destination := Some ".";
              Cli.call_options :=
                Cli.cpyOptions
                  (Fixture.withFlags false false false (Some "x-{{basename}}"))
                  (VRename (fun _ => "target.js")) true |}
           eq_refl))))).
Defined.

(** X9: in a dry run, whatever the engine: when the engine resolves to a
    non-empty list, standard output is exactly one line per progress
    report the engine made, in the order of the reports, and the program
    ends normally; when it resolves to the empty list, the reports are
    dropped, nothing is printed and the program exits with code 1. *)
Theorem dry_run_prints_the_reports
    (cpy : Engine) (h : Host) (cli : Cli.Meow) (fs : FS) (call : Cli.CpyCall)
    (files : list CopyRecord) :
  Cli.dryRun (Cli.flags cli) = true ->
  Cli.invocation h cli fs = Normal call ->
  result (Cli.engineOutcome cpy call fs) = Normal files ->
  (files <> [] ->
   (Cli.main cpy h cli (Cli.start fs)).1 = Cli.Returned ()
   /\ Cli.stdout (Cli.main cpy h cli (Cli.start fs)).2
      = map (Cli.line h) (events (Cli.engineOutcome cpy call fs))
   /\ length (Cli.stdout (Cli.main cpy h cli (Cli.start fs)).2)
      = length (events (Cli.engineOutcome cpy call fs)))
  /\ (files = [] ->
      (Cli.main cpy h cli (Cli.start fs)).1 = Cli.Exited 1
      /\ Cli.stdout (Cli.main cpy h cli (Cli.start fs)).2 = []).
Proof.
  intros Hdry Hcall Hfiles. rewrite main_cases, Hcall. cbv zeta.
  rewrite Hfiles, Hdry. split.
  - intros Hsome. destruct files as [|file files]; [done|]. simpl.
    by rewrite length_map.
  - by intros ->.
Qed.

Lemma dry_run_prints_the_reports_witness :
  Cli.stdout (Fixture.run (Fixture.withFlags false true true None)
                          Fixture.flatTree ["*.txt"; "out"]).2
  = ["a.txt → out/a.txt"; "b.txt → out/b.txt"].
Proof.
  unfold Fixture.run.
  rewrite (proj1 (proj2 (proj1 (dry_run_prints_the_reports
             (Cpy.cpy Sample.host) Sample.host
             {| Cli.input := ["*.txt"; "out"];
                Cli.flags := Fixture.withFlags false true true None |}
             Fixture.flatTree
             {| Cli.call_input := ["*.txt"];
                Cli.call_destination := Some "out";
                Cli.call_options :=
                  Cli.cpyOptions (Fixture.withFlags false true true None)
                                 VUndefined false |}
             [ {| sourcePath := "/work/a.txt"; destinationPath := "/work/out/a.txt" |};
               {| sourcePath := "/work/b.txt"; destinationPath := "/work/out/b.txt" |} ]
             eq_refl ltac:(vm_compute; reflexivity)
             ltac:(vm_compute; reflexivity)) ltac:(done)))).
  vm_compute. reflexivity.
Defined.

(** X10: the program ends in one of three ways, whatever the engine.
    Normally (exit code 0), exactly when the shortcut test does not throw
    and the engine resolves to a non-empty list, with nothing on the
    error stream.  With exit code 1, exactly when the engine resolves to
    the empty list or an error named [CpyError] is thrown, by the engine
    or by the shortcut test, with nothing on standard output and one line
    on the error stream.  With an uncaught exception, exactly when any
    other error is thrown, by the engine or by the glob test of the
    shortcut: the exception is that error, and nothing is printed.  The
    program never exits with another code; the file system it leaves is
    the one the engine leaves, and the one it found when the shortcut
    test throws and the engine is never called. *)
Theorem main_outcomes (cpy : Engine) (h : Host) (cli : Cli.Meow) (fs : FS) :
  let final := Cli.main cpy h cli (Cli.start fs) in
  (forall call,
     Cli.invocation h cli fs = Normal call ->
     Cli.files final.2 = fs_after (Cli.engineOutcome cpy call fs))
  /\ (forall error,
        Cli.invocation h cli fs = Throw error ->
        Cli.files final.2 = fs
        /\ Cli.thrown cpy h cli fs = Some (error, fs))
  /\ ((final.1 = Cli.Returned ()
       /\ Cli.stderr final.2 = []
       /\ exists call files,
            Cli.invocation h cli fs = Normal call
            /\ result (Cli.engineOutcome cpy call fs) = Normal files
            /\ files <> [])
      \/ (final.1 = Cli.Exited 1
          /\ Cli.stdout final.2 = []
          /\ (exists message, Cli.stderr final.2 = [message])
          /\ ((exists call,
                 Cli.invocation h cli fs = Normal call
                 /\ result (Cli.engineOutcome cpy call fs) = Normal [])
              \/ exists error after,
                   Cli.thrown cpy h cli fs = Some (error, after)
                   /\ name error = "CpyError"))
      \/ (exists error after,
            final.1 = Cli.Thrown error
            /\ Cli.thrown cpy h cli fs = Some (error, after)
            /\ name error <> "CpyError"
            /\ Cli.stdout final.2 = []
            /\ Cli.stderr final.2 = [])).
Proof.
  intros final. subst final. rewrite main_cases. unfold Cli.thrown. cbv zeta.
  destruct (Cli.invocation h cli fs) as [call|error].
  - split; [|split; [done|]].
    { intros ? [= <-].
      destruct (result (Cli.engineOutcome cpy call fs)) as [files|error];
        [destruct (length files =? 0), (Cli.dryRun (Cli.flags cli))
        |destruct (decide (name error = "CpyError"))]; done. }
    destruct (result (Cli.engineOutcome cpy call fs)) as [files|error] eqn:Hresult.
    + destruct files as [|file files]; simpl.
      * right. left. eauto 10.
      * destruct (Cli.dryRun (Cli.flags cli)); simpl;
          (left; split; [done|]; split; [done|]; by eexists _, _).
    + destruct (decide (name error = "CpyError")); simpl.
      * right. left. eauto 10.
      * right. right. by eexists _, _.
  - split; [done|].
    destruct (decide (name error = "CpyError")); simpl.
    + split; [by intros ? [= <-]|]. right. left. eauto 10.
    + split; [by intros ? [= <-]|]. right. right. by eexists _, _.
Qed.

(** ** Negated patterns and the shortcut (lines 98-107) *)

Section Negated.

Lemma sourcePatterns_idempotent (input : list string) :
  Cli.sourcePatterns (Cli.sourcePatterns input) = Cli.sourcePatterns input.
Proof.
  unfold Cli.sourcePatterns. induction input as [|pattern input IH]; [done|].
  destruct (Js.startsWith pattern "!") eqn:Hnegated.
  - by rewrite filter_cons_False by congruence.
  - rewrite filter_cons_True by done.
    rewrite filter_cons_True by done. by rewrite IH.
Qed.

Lemma sourcePatterns_member (input : list string) (pattern : string) :
  pattern ∈ Cli.sourcePatterns input
  <-> pattern ∈ input /\ ~ exists rest, pattern = "!" +:+ rest.
Proof.
  unfold Cli.sourcePatterns. rewrite list_elem_of_filter.
  pose proof (startsWith_prefix "!" pattern) as Hprefix.
  destruct (Js.startsWith pattern "!").
  - split; [by intros [? ?]|]. intros [_ Hno]. destruct Hno. by apply Hprefix.
  - split; intros [Hin Hno]; (split; [done|]); [|done].
    intros Hsome. apply Hprefix in Hsome. done.
Qed.

End Negated.

(** X11: negated patterns never decide the shortcut.  A pattern counts as
    a source exactly when it does not start with [!], and an invocation is
    reclassified as a file-to-file copy if and only if the same invocation
    without its negated patterns is. *)
Theorem negated_patterns_do_not_decide
    (h : Host) (flags : Cli.Flags) (fs : FS)
    (sources : list string) (destination : string) :
  (forall pattern,
     pattern ∈ Cli.sourcePatterns sources
     <-> pattern ∈ sources /\ ~ exists rest, pattern = "!" +:+ rest)
  /\ (Cli.reclassified h
        {| Cli.input := sources ++ [destination]; Cli.flags := flags |} fs
      <-> Cli.reclassified h
            {| Cli.input := Cli.sourcePatterns sources ++ [destination];
               Cli.flags := flags |} fs).
Proof.
  split; [apply sourcePatterns_member|].
  rewrite !reclassified_fileToFile. cbn [Cli.input Cli.flags].
  rewrite !pop_snoc. cbn [fst snd]. by rewrite sourcePatterns_idempotent.
Qed.
